(** * NeMo lightning plugins: mixed precision and the trainer subclass

    A shallow embedding of
      - nemo/lightning/pytorch/plugins/mixed_precision.py
      - nemo/lightning/pytorch/trainer.py
    Python objects become records and inductive types, attribute lookups that
    can fail return an exception, and the calls a method makes on its
    collaborators (closure, optimizer, scaler, parent class) are recorded, in
    order, in a trace. *)

From Stdlib Require Import String List ZArith Bool Lia PeanoNat.
Import ListNotations.
Open Scope string_scope.
Open Scope list_scope.

Set Implicit Arguments.

(** ** Python exceptions raised by the embedded code *)

Inductive exn : Type :=
| AssertionError (msg : string)
| AttributeError (attr : string)
| UnboundLocalError (var : string).

Inductive result (A : Type) : Type :=
| Return (a : A)
| Raise (e : exn).
Arguments Raise {A} e.

(** ** A small monad: a computation yields a result and the calls it made *)

Module Calls.
Section WithEvent.
Variable E : Type.

Definition M (A : Type) : Type := (result A * list E)%type.

Definition ret {A} (a : A) : M A := (Return a, []).

Definition bind {A B} (c : M A) (k : A -> M B) : M B :=
match c with
| (Return a, t1) => let (r, t2) := k a in (r, t1 ++ t2)
| (Raise e, t1) => (Raise e, t1)
end.

Definition call (e : E) : M unit := (Return tt, [e]).

Definition raise {A} (e : exn) : M A := (Raise e, []).

Definition outcome {A} (c : M A) : result A := fst c.
Definition trace {A} (c : M A) : list E := snd c.
End WithEvent.
Arguments ret {E A} a.
Arguments bind {E A B} c k.
Arguments call {E} e.
Arguments raise {E A} e.
Arguments outcome {E A} c.
Arguments trace {E A} c.
End Calls.

Declare Scope calls_scope.
Delimit Scope calls_scope with calls.
Notation "x <- c1 ;; c2" := (Calls.bind c1 (fun x => c2))
  (at level 61, c1 at next level, right associativity) : calls_scope.
Notation "c1 ;; c2" := (Calls.bind c1 (fun _ => c2))
  (at level 61, right associativity) : calls_scope.

(** ** Optimizers, models, scalers *)

(** [nemo.core.optim.MainParamsOptimizerWrapper] is imported by the plugin; of
    the wrapper only its constructor arguments and the read-only property
    [fp32_grad_accumulation] (the [fp32_grad_accum] argument) are used here.
    Any other optimizer may or may not carry an attribute of that name. *)
Inductive Optimizer : Type :=
| TorchOptimizer (name : string) (fp32_grad_accumulation_attr : option bool)
| MainParamsOptimizerWrapper
    (optimizer : Optimizer) (fp32_grad_accum : bool) (contiguous_grad_bucket : bool).

Definition isinstance_MainParamsOptimizerWrapper (o : Optimizer) : bool :=
  match o with
  | MainParamsOptimizerWrapper _ _ _ => true
  | TorchOptimizer _ _ => false
  end.

(** [optimizer.fp32_grad_accumulation]: [None] when the attribute is absent. *)
Definition fp32_grad_accumulation (o : Optimizer) : option bool :=
  match o with
  | MainParamsOptimizerWrapper _ acc _ => Some acc
  | TorchOptimizer _ attr => attr
  end.

(** [Union["pl.LightningModule", torch.nn.Module]] *)
Inductive Model : Type :=
| TorchModule (name : string)
| LightningModule (name : string) (automatic_optimization : bool).

Definition isinstance_LightningModule (m : Model) : bool :=
  match m with
  | LightningModule _ _ => true
  | TorchModule _ => false
  end.

(** Only read behind [isinstance(model, pl.LightningModule)]. *)
Definition automatic_optimization (m : Model) : bool :=
  match m with
  | LightningModule _ b => b
  | TorchModule _ => false
  end.

(** [GradScaler(init_scale=..., growth_interval=..., hysteresis=...)] *)
Record GradScaler : Type := mkGradScaler {
  init_scale : Z;
  growth_interval : Z;
  hysteresis : Z
}.

Definition kwargs : Type := list (string * Z).

(** The closure handed to [optimizer_step]: what it returns when called
    ([None] is Python's [None]). *)
Record Closure : Type := mkClosure { closure_returns : option Z }.

(** ** The optimizer-step hook *)

(** Calls made by [optimizer_step] on its collaborators. *)
Inductive step_call : Type :=
| call_closure
| call_copy_model_grads_to_main_grads (o : Optimizer)
| call_scaler_unscale_ (s : GradScaler) (o : Optimizer)
| call__after_closure (m : Model) (o : Optimizer)
| call_scaler_step (s : GradScaler) (o : Optimizer) (kw : kwargs)
| call_scaler_update (s : GradScaler)
| call_optimizer_step (o : Optimizer) (kw : kwargs)
| call_super_optimizer_step (o : Optimizer) (m : Model) (c : Closure) (kw : kwargs).

(** What the hook returns to its caller. *)
Inductive step_return : Type :=
| PyNone
| result_of_optimizer_step
| result_of_super_optimizer_step.

Inductive torch_dtype : Type := float32 | float16 | bfloat16 | int64.

Module StepHook.
Import Calls.
Local Open Scope calls_scope.

Definition M := Calls.M step_call.

Definition closure_ (c : Closure) : M (option Z) :=
  call call_closure ;; ret (closure_returns c).

(** [optimizer.fp32_grad_accumulation] as an expression *)
Definition get_fp32_grad_accumulation (o : Optimizer) : M bool :=
  match fp32_grad_accumulation o with
  | Some b => ret b
  | None => raise (AttributeError "fp32_grad_accumulation")
  end.

Definition assert_ (b : bool) (msg : string) : M unit :=
  if b then ret tt else raise (AssertionError msg).

(** [optimizer.copy_model_grads_to_main_grads()]: a method of the wrapper;
    on any other optimizer the lookup raises. *)
Definition copy_model_grads_to_main_grads (o : Optimizer) : M unit :=
  match o with
  | MainParamsOptimizerWrapper _ _ _ => call (call_copy_model_grads_to_main_grads o)
  | TorchOptimizer _ _ => raise (AttributeError "copy_model_grads_to_main_grads")
  end.

Definition is_None {A} (v : option A) : bool :=
  match v with None => true | Some _ => false end.

(** Lines 196-222 of mixed_precision.py, shared verbatim by lines 318-344. *)
Definition scaled_step (scaler : option GradScaler) (optimizer : Optimizer)
           (model : Model) (closure : Closure) (kw : kwargs) : M step_return :=
  match scaler with
  | None =>
      b <- get_fp32_grad_accumulation optimizer ;;
      assert_ b "BF16 uses FP32 grad accumulation" ;;
      _ <- closure_ closure ;;
      call (call__after_closure model optimizer) ;;
      call (call_optimizer_step optimizer kw) ;;
      ret result_of_optimizer_step
  | Some sc =>
      b <- get_fp32_grad_accumulation optimizer ;;
      assert_ (negb b) "FP16 uses FP16 grad accumulation" ;;
      closure_result <- closure_ closure ;;
      copy_model_grads_to_main_grads optimizer ;;
      call (call_scaler_unscale_ sc optimizer) ;;
      call (call__after_closure model optimizer) ;;
      let skipped_backward := is_None closure_result in
      if negb (isinstance_LightningModule model)
         || negb (automatic_optimization model)
         || negb skipped_backward
      then
        call (call_scaler_step sc optimizer kw) ;;
        call (call_scaler_update sc) ;;
        ret PyNone
      else ret PyNone
  end.
End StepHook.


(** ** Tensors, modules and nested forward data *)

(** A tensor is its dtype tag and an opaque payload that tells tensors
    apart; the values a tensor holds, and how a cast rounds them, are not
    modelled. *)
Record Tensor : Type := mkTensor {
  tensor_dtype : torch_dtype;
  tensor_payload : Z
}.

Definition is_floating_point (d : torch_dtype) : bool :=
  match d with
  | float32 | float16 | bfloat16 => true
  | int64 => false
  end.

Definition tensor_to (d : torch_dtype) (val : Tensor) : Tensor :=
  mkTensor d (tensor_payload val).

Definition tensor_half (val : Tensor) : Tensor := tensor_to float16 val.
Definition tensor_bfloat16 (val : Tensor) : Tensor := tensor_to bfloat16 val.
Definition tensor_float (val : Tensor) : Tensor := tensor_to float32 val.

(** [torch.nn.Module]: [module.half()] and [module.bfloat16()] cast the
    floating-point parameters and leave the others alone. *)
Record nn_Module : Type := mk_nn_Module { parameters : list Tensor }.

Definition module_to (d : torch_dtype) (module : nn_Module) : nn_Module :=
  mk_nn_Module
    (map (fun p => if is_floating_point (tensor_dtype p) then tensor_to d p else p)
         (parameters module)).

Definition module_half : nn_Module -> nn_Module := module_to float16.
Definition module_bfloat16 : nn_Module -> nn_Module := module_to bfloat16.

(** Values passed to and returned from the model's forward. *)
#[warnings="-register-all"] Inductive pydata : Type :=
| DTensor (val : Tensor)
| DOther (v : Z)
| DList (items : list pydata)
| DTuple (items : list pydata).

(** The two helpers of [megatron.core.transformer.module] that the plugin
    imports, after that module's [conversion_helper]. *)
Module Megatron.
Fixpoint conversion_helper (conversion : pydata -> pydata) (val : pydata) : pydata :=
  match val with
  | DList items => DList (map (conversion_helper conversion) items)
  | DTuple items => DTuple (map (conversion_helper conversion) items)
  | _ => conversion val
  end.

Definition fp32_to_float16 (val : pydata) (float16_convertor : Tensor -> Tensor) : pydata :=
  let half_conversion (val : pydata) :=
    match val with
    | DTensor t =>
        match tensor_dtype t with
        | float32 => DTensor (float16_convertor t)
        | _ => val
        end
    | _ => val
    end in
  conversion_helper half_conversion val.

Definition float16_to_fp32 (val : pydata) : pydata :=
  let float_conversion (val : pydata) :=
    match val with
    | DTensor t =>
        match tensor_dtype t with
        | float16 | bfloat16 => DTensor (tensor_float t)
        | _ => val
        end
    | _ => val
    end in
  conversion_helper float_conversion val.
End Megatron.

(** Python list objects live in a store and are named by their position in
    it, so that a fresh list and an aliased one can be told apart. *)
Module Store.
Definition ref : Type := nat.
Definition t (A : Type) : Type := list (list A).

Definition deref {A} (h : t A) (r : ref) : option (list A) := nth_error h r.

Definition alloc {A} (h : t A) (items : list A) : t A * ref :=
  (h ++ [items], length h).

Fixpoint list_set {A} (l : list A) (i : nat) (v : A) : list A :=
  match l, i with
  | [], _ => []
  | _ :: l', O => v :: l'
  | x :: l', S i' => x :: list_set l' i' v
  end.

(** [h[r][i] = v] for a valid [r] and [i] *)
Definition setitem {A} (h : t A) (r : ref) (i : nat) (v : A) : t A :=
  match deref h r with
  | Some items => list_set h r (list_set items i v)
  | None => h
  end.
End Store.

(** ** MegatronMixedPrecision *)

Module MegatronMixedPrecision.
Import Calls.

(** A constructed plugin, as its methods read it. *)
Record t : Type := mk {
  precision : string;
  device : string;
  scaler : option GradScaler;
  dtype : option torch_dtype;
  float16_convertor : Tensor -> Tensor;
  amp_02 : bool
}.

(** The object while [__init__] runs: an attribute is [None] until it has
    been assigned. *)
Record attrs : Type := mk_attrs {
  a_precision : option string;
  a_device : option string;
  a_scaler : option (option GradScaler);
  a_dtype : option (option torch_dtype);
  a_float16_convertor : option (Tensor -> Tensor);
  a_amp_02 : option bool
}.

Definition blank : attrs := mk_attrs None None None None None None.

Definition set_dtype (v : option torch_dtype) (a : attrs) : attrs :=
  mk_attrs (a_precision a) (a_device a) (a_scaler a) (Some v)
           (a_float16_convertor a) (a_amp_02 a).

Definition set_float16_convertor (v : Tensor -> Tensor) (a : attrs) : attrs :=
  mk_attrs (a_precision a) (a_device a) (a_scaler a) (a_dtype a) (Some v) (a_amp_02 a).

Definition set_amp_02 (v : bool) (a : attrs) : attrs :=
  mk_attrs (a_precision a) (a_device a) (a_scaler a) (a_dtype a)
           (a_float16_convertor a) (Some v).

(** The plugin read off a fully initialised object. *)
Definition constructed (a : attrs) : option t :=
  match a_precision a, a_device a, a_scaler a, a_dtype a,
        a_float16_convertor a, a_amp_02 a with
  | Some p, Some d, Some s, Some dt, Some c, Some b => Some (mk p d s dt c b)
  | _, _, _, _, _, _ => None
  end.

(** [Optional[Union[torch.cuda.amp.GradScaler, str]]] *)
Definition scaler_arg : Type := option (GradScaler + string).

Section Init.
(** The parent class and torch are not part of this repository: the
    parent's initialiser and [torch.set_autocast_gpu_dtype] are taken as
    given. *)
Variable super___init__ :
  string -> string -> option GradScaler -> attrs -> result unit * attrs.
Variable set_autocast_gpu_dtype : option torch_dtype -> result unit.

Definition __init__ (precision : string) (amp_02 : bool) (device : string)
           (scaler : scaler_arg) (self : attrs) : result unit * attrs :=
  let scaler : option GradScaler :=
    if precision =? "bf16-mixed" then None
    else Some (mkGradScaler (2 ^ 32) 1000 2) in
  match super___init__ precision device scaler self with
  | (Raise e, self) => (Raise e, self)
  | (Return _, self) =>
      let dtype : option torch_dtype := None in
      (* the local [float16_convertor] is bound in two branches only *)
      let '(dtype, float16_convertor) :=
        if precision =? "16-mixed" then (Some float16, Some tensor_half)
        else if precision =? "bf16-mixed" then (Some bfloat16, Some tensor_bfloat16)
        else (dtype, None) in
      let self := set_dtype dtype self in
      match set_autocast_gpu_dtype dtype with
      | Raise e => (Raise e, self)
      | Return _ =>
          match float16_convertor with
          | None => (Raise (UnboundLocalError "float16_convertor"), self)
          | Some float16_convertor =>
              let self := set_float16_convertor float16_convertor self in
              let self := set_amp_02 amp_02 self in
              (Return tt, self)
          end
      end
  end.
End Init.

Definition convert_module (self : t) (module : nn_Module) : nn_Module :=
  if precision self =? "bf16-mixed" then module_bfloat16 module
  else if precision self =? "16-mixed" then module_half module
  else module.

Definition convert_optimizer (self : t) (optimizer : Optimizer) : Optimizer :=
  if isinstance_MainParamsOptimizerWrapper optimizer || negb (amp_02 self)
  then optimizer
  else MainParamsOptimizerWrapper optimizer true true.

Definition is_empty {A} (l : list A) : bool :=
  match l with [] => true | _ :: _ => false end.

(** [connect]: the optimizer list is a list object [optimizers] of the
    store [h]; [None] only for a reference that names no list. *)
Definition connect {L : Type} (self : t) (model : nn_Module)
           (optimizers : Store.ref) (lr_schedulers : L) (h : Store.t Optimizer)
  : option ((nn_Module * Store.ref * L) * Store.t Optimizer) :=
  match Store.deref h optimizers with
  | None => None
  | Some items =>
      if is_empty items
         || negb (amp_02 self)
         || match items with
            | o :: _ => isinstance_MainParamsOptimizerWrapper o
            | [] => false
            end
      then Some ((model, optimizers, lr_schedulers), h)
      else
        (* _optimizers = [*optimizers] *)
        let (h, _optimizers) := Store.alloc h items in
        (* _optimizers[0] = self.convert_optimizer(_optimizers[0]) *)
        match Store.deref h _optimizers with
        | Some (o :: _) =>
            let h := Store.setitem h _optimizers 0 (convert_optimizer self o) in
            Some ((model, _optimizers, lr_schedulers), h)
        | _ => None
        end
  end.

Definition convert_input (self : t) (data : pydata) : pydata :=
  Megatron.fp32_to_float16 data (float16_convertor self).

Definition convert_output (self : t) (data : pydata) : pydata :=
  Megatron.float16_to_fp32 data.

Local Open Scope calls_scope.

Definition optimizer_step (self : t) (optimizer : Optimizer) (model : Model)
           (closure : Closure) (kw : kwargs) : StepHook.M step_return :=
  if negb (amp_02 self) && negb (isinstance_MainParamsOptimizerWrapper optimizer)
  then
    call (call_super_optimizer_step optimizer model closure kw) ;;
    ret result_of_super_optimizer_step
  else StepHook.scaled_step (scaler self) optimizer model closure kw.
End MegatronMixedPrecision.

(** ** MegatronHalfPrecision *)

Module MegatronHalfPrecision.
Import Calls.
Local Open Scope calls_scope.

Record t : Type := mk {
  precision : string;
  device : string;
  scaler : option GradScaler
}.

Definition optimizer_step (self : t) (optimizer : Optimizer) (model : Model)
           (closure : Closure) (kw : kwargs) : StepHook.M step_return :=
  StepHook.assert_ (isinstance_MainParamsOptimizerWrapper optimizer)
    "MegatronHalfPrecisionPlugin supports only the optimizer with master parameters" ;;
  StepHook.scaled_step (scaler self) optimizer model closure kw.
(** [Union[str, int]] *)
Definition precision_arg : Type := (string + Z)%type.

(** [precision == s] for a string literal [s] *)
Definition precision_is (precision : precision_arg) (s : string) : bool :=
  match precision with
  | inl p => p =? s
  | inr _ => false
  end.

(** [scaler == "auto"] *)
Definition is_auto (scaler : option (GradScaler + string)) : bool :=
  match scaler with
  | Some (inr s) => s =? "auto"
  | _ => false
  end.

Section Init.
(** The object under construction is left to the parent class, whose
    initialiser and [torch.set_autocast_gpu_dtype] are taken as given. *)
Variable S : Type.
Variable super___init__ :
  precision_arg -> string -> option (GradScaler + string) -> S -> result unit * S.
Variable set_autocast_gpu_dtype : option torch_dtype -> result unit.

Definition __init__ (precision : precision_arg) (device : string)
           (scaler : option (GradScaler + string)) (self : S) : result unit * S :=
  let scaler :=
    if is_auto scaler then
      if precision_is precision "bf16-mixed" then None
      else Some (inl (mkGradScaler (2 ^ 32) 1000 2))
    else scaler in
  match super___init__ precision device scaler self with
  | (Raise e, self) => (Raise e, self)
  | (Return _, self) =>
      let dtype : option torch_dtype := None in
      let dtype :=
        if precision_is precision "16-mixed" then Some float16
        else if precision_is precision "bf16-mixed" then Some bfloat16
        else dtype in
      match set_autocast_gpu_dtype dtype with
      | Raise e => (Raise e, self)
      | Return _ => (Return tt, self)
      end
  end.
End Init.
End MegatronHalfPrecision.

(** ** PipelineMixedPrecision *)

Module PipelineMixedPrecision.
Section Init.
Variable S : Type.
Variable super___init__ :
  string -> string -> option GradScaler -> S -> result unit * S.
Variable set_autocast_gpu_dtype : option torch_dtype -> result unit.

Definition __init__ (precision : string) (device : string)
           (scaler : option GradScaler) (self : S) : result unit * S :=
  match super___init__ precision device scaler self with
  | (Raise e, self) => (Raise e, self)
  | (Return _, self) =>
      let dtype : option torch_dtype := None in
      let dtype :=
        if precision =? "16-mixed" then Some float16
        else if precision =? "bf16-mixed" then Some bfloat16
        else dtype in
      match set_autocast_gpu_dtype dtype with
      | Raise e => (Raise e, self)
      | Return _ => (Return tt, self)
      end
  end.
End Init.
End PipelineMixedPrecision.

(** ** Trainer *)

(** Argument values of the trainer.  Lists, dicts and instances are objects
    with an identity (their address); ints, strings, [None] and the like are
    immutable and [deepcopy] hands them back as they are. *)
#[warnings="-register-all"] Inductive pyobj : Type :=
| Atom (ty : string) (v : Z)
| PyList (addr : nat) (items : list pyobj)
| PyDict (addr : nat) (entries : list (string * pyobj))
| Instance (addr : nat) (ty : string) (state : list (string * pyobj)).

Module Copy.
(** [copy.deepcopy] with the allocator's next free address threaded
    through: the new container is created first, then filled with the
    copies of its members. *)
Fixpoint deepcopy (x : pyobj) (next : nat) : pyobj * nat :=
  let copy_items :=
    fix copy_items (l : list pyobj) (n : nat) : list pyobj * nat :=
      match l with
      | [] => ([], n)
      | a :: l' =>
          let (a', n) := deepcopy a n in
          let (l'', n) := copy_items l' n in
          (a' :: l'', n)
      end in
  let copy_entries :=
    fix copy_entries (l : list (string * pyobj)) (n : nat)
      : list (string * pyobj) * nat :=
      match l with
      | [] => ([], n)
      | (k, a) :: l' =>
          let (a', n) := deepcopy a n in
          let (l'', n) := copy_entries l' n in
          ((k, a') :: l'', n)
      end in
  match x with
  | Atom ty v => (Atom ty v, next)
  | PyList _ items =>
      let (y, n) := copy_items items (S next) in (PyList next y, n)
  | PyDict _ entries =>
      let (y, n) := copy_entries entries (S next) in (PyDict next y, n)
  | Instance _ ty state =>
      let (y, n) := copy_entries state (S next) in (Instance next ty y, n)
  end.

(** [{k: deepcopy(v) for k, v in kwargs.items()}] without the dict itself *)
Fixpoint deepcopy_values (l : list (string * pyobj)) (n : nat)
  : list (string * pyobj) * nat :=
  match l with
  | [] => ([], n)
  | (k, v) :: l' =>
      let (v', n) := deepcopy v n in
      let (l'', n) := deepcopy_values l' n in
      ((k, v') :: l'', n)
  end.
End Copy.

(** [type(obj)] as the name of the class *)
Definition type_of (obj : pyobj) : string :=
  match obj with
  | Atom ty _ => ty
  | PyList _ _ => "list"
  | PyDict _ _ => "dict"
  | Instance _ ty _ => ty
  end.

(** The address of an object that has one. *)
Definition id_of (obj : pyobj) : option nat :=
  match obj with
  | Atom _ _ => None
  | PyList a _ | PyDict a _ | Instance a _ _ => Some a
  end.

(** [fdl.Config(cls, **arguments)] *)
Record Config : Type := mkConfig {
  cfg_cls : string;
  cfg_arguments : list (string * pyobj)
}.

Module Trainer.
(** A leaf reached by [add_io]: which object it was and the class handed
    to [track_io], if any. *)
Record visit : Type := mkVisit {
  visited : pyobj;
  tracked : option string
}.

Section AddIo.
(** [serialization.find_node_traverser(cls)] is truthy *)
Variable find_node_traverser : string -> bool.

Fixpoint add_io (obj : pyobj) : list visit :=
  match obj with
  | PyDict _ entries => flat_map (fun kv => add_io (snd kv)) entries
  | PyList _ items => flat_map add_io items
  | _ =>
      if negb (find_node_traverser (type_of obj))
      then [mkVisit obj (Some (type_of obj))]
      else [mkVisit obj None]
  end.

(** [io_init(self, **kwargs)]: the config, the leaves [add_io] went
    through, and the allocator afterwards. *)
Definition io_init (type_self : string) (kwargs : list (string * pyobj))
           (next : nat) : Config * list visit * nat :=
  let cfg_addr := next in
  let (cfg_kwargs, next) := Copy.deepcopy_values kwargs (S next) in
  let visits := add_io (PyDict cfg_addr cfg_kwargs) in
  (mkConfig type_self cfg_kwargs, visits, next).
End AddIo.

(** [Fabric(devices=..., accelerator=..., strategy=..., plugins=...,
    callbacks=..., loggers=...)]; [None] is Python's [None]. *)
Record Fabric (V : Type) : Type := mkFabric {
  devices : option V;
  accelerator : option V;
  strategy : option V;
  plugins : option V;
  callbacks : option V;
  loggers : option V
}.

Section ToFabric.
(** Values held by [self.__io__]; [fdl.build], the [to_fabric]
    conversion of [nemo.lightning.fabric.conversion] and the test
    [isinstance(_, fdl.Config)] are taken as given. *)
Variable V : Type.
Variable isinstance_Config : V -> bool.
Variable fdl_build : V -> V.
Variable conversion_to_fabric : V -> V.

(** [getattr(self.__io__, name)]; [None] when [hasattr] is false *)
Variable io_attr : string -> option V.

Definition to_fabric (callbacks loggers : option V) : Fabric V :=
  let devices := None in
  let accelerator := None in
  let strategy := None in
  let plugins := None in
  let devices :=
    match io_attr "devices" with Some v => Some v | None => devices end in
  let accelerator :=
    match io_attr "accelerator" with Some v => Some v | None => accelerator end in
  let strategy :=
    match io_attr "strategy" with
    | Some strategy =>
        let strategy :=
          if isinstance_Config strategy then fdl_build strategy else strategy in
        Some (conversion_to_fabric strategy)
    | None => strategy
    end in
  let plugins :=
    match io_attr "plugins" with
    | Some plugins =>
        let plugins :=
          if isinstance_Config plugins then fdl_build plugins else plugins in
        Some (conversion_to_fabric plugins)
    | None => plugins
    end in
  mkFabric devices accelerator strategy plugins callbacks loggers.
End ToFabric.
End Trainer.

(** The collaborators of [__init__] as the plugin relies on them: the
    parent's initialiser records its three arguments, and setting the
    autocast dtype returns. *)
Module Lightning.
Definition MixedPrecision___init__ (precision device : string)
           (scaler : option GradScaler) (self : MegatronMixedPrecision.attrs)
  : result unit * MegatronMixedPrecision.attrs :=
  (Return tt,
   MegatronMixedPrecision.mk_attrs
     (Some precision) (Some device) (Some scaler)
     (MegatronMixedPrecision.a_dtype self)
     (MegatronMixedPrecision.a_float16_convertor self)
     (MegatronMixedPrecision.a_amp_02 self)).

Definition set_autocast_gpu_dtype (dtype : option torch_dtype) : result unit :=
  Return tt.
End Lightning.

(** * Vocabulary of the properties *)

Module MMP := MegatronMixedPrecision.
Module MHP := MegatronHalfPrecision.

(** The parent's initialiser returns normally when called with [precision]
    and [scaler]. *)
Definition parent_accepts
           (super___init__ :
              string -> string -> option GradScaler -> MMP.attrs -> result unit * MMP.attrs)
           (precision : string) (scaler : option GradScaler) : Prop :=
  forall device self, fst (super___init__ precision device scaler self) = Return tt.

(** The parent's initialiser records [precision], [device] and [scaler] on
    the object. *)
Definition parent_records
           (super___init__ :
              string -> string -> option GradScaler -> MMP.attrs -> result unit * MMP.attrs)
           (precision : string) (scaler : option GradScaler) : Prop :=
  forall device self,
    super___init__ precision device scaler self
    = Lightning.MixedPrecision___init__ precision device scaler self.

(** The calls of the gradient-scaled step, in the order the specification
    gives them. *)
Definition scaled_sequence (sc : GradScaler) (optimizer : Optimizer) (model : Model)
           (closure : Closure) (kw : kwargs) : list step_call :=
  [ call_closure;
    call_copy_model_grads_to_main_grads optimizer;
    call_scaler_unscale_ sc optimizer;
    call__after_closure model optimizer ]
  ++ (if isinstance_LightningModule model
         && automatic_optimization model
         && StepHook.is_None (closure_returns closure)
      then []
      else [ call_scaler_step sc optimizer kw; call_scaler_update sc ]).

(** The step order as the specification states it: every call with a scaler
    and an optimizer whose [fp32_grad_accumulation] is false. *)
Definition stated_step_order (self : MMP.t) (optimizer : Optimizer) (model : Model)
           (closure : Closure) (kw : kwargs) : Prop :=
  forall sc,
    MMP.scaler self = Some sc ->
    fp32_grad_accumulation optimizer = Some false ->
    MMP.optimizer_step self optimizer model closure kw
    = (Return PyNone, scaled_sequence sc optimizer model closure kw).

(** The assertion preconditions as the specification states them. *)
Definition stated_preconditions (self : MMP.t) (optimizer : Optimizer) (model : Model)
           (closure : Closure) (kw : kwargs) : Prop :=
  (MMP.scaler self = None ->
   fp32_grad_accumulation optimizer <> Some true ->
   exists msg,
     MMP.optimizer_step self optimizer model closure kw = (Raise (AssertionError msg), []))
  /\
  (forall sc,
     MMP.scaler self = Some sc ->
     fp32_grad_accumulation optimizer <> Some false ->
     exists msg,
       MMP.optimizer_step self optimizer model closure kw = (Raise (AssertionError msg), [])).

(** Inputs used below. *)
Definition the_scaler : GradScaler := mkGradScaler (2 ^ 32) 1000 2.
Definition adam : Optimizer := TorchOptimizer "Adam" (Some false).
Definition wrapped_adam : Optimizer := MainParamsOptimizerWrapper adam false true.
Definition gpt : Model := LightningModule "GPT" true.
Definition loss_closure : Closure := mkClosure (Some 7%Z).
Definition fp16_plugin (amp_02 : bool) : MMP.t :=
  MMP.mk "16-mixed" "cuda" (Some the_scaler) (Some float16) tensor_half amp_02.
Definition bf16_plugin (amp_02 : bool) : MMP.t :=
  MMP.mk "bf16-mixed" "cuda" None (Some bfloat16) tensor_bfloat16 amp_02.

(** Change the dtype tag of every tensor leaf, keep everything else. *)
Fixpoint cast_leaves (f : torch_dtype -> torch_dtype) (data : pydata) : pydata :=
  match data with
  | DTensor val => DTensor (tensor_to (f (tensor_dtype val)) val)
  | DOther v => DOther v
  | DList items => DList (map (cast_leaves f) items)
  | DTuple items => DTuple (map (cast_leaves f) items)
  end.

Definition fp32_to (half : torch_dtype) (d : torch_dtype) : torch_dtype :=
  match d with float32 => half | _ => d end.

Definition half_to_fp32 (d : torch_dtype) : torch_dtype :=
  match d with float16 | bfloat16 => float32 | _ => d end.

(** No tensor leaf is already in half precision. *)
Fixpoint no_half_leaf (data : pydata) : bool :=
  match data with
  | DTensor val =>
      match tensor_dtype val with float16 | bfloat16 => false | _ => true end
  | DOther _ => true
  | DList items | DTuple items => forallb no_half_leaf items
  end.

Definition pydata_induction (P : pydata -> Prop)
           (HT : forall val, P (DTensor val))
           (HO : forall v, P (DOther v))
           (HL : forall items, Forall P items -> P (DList items))
           (HU : forall items, Forall P items -> P (DTuple items))
  : forall data, P data :=
  fix F (data : pydata) : P data :=
    let all :=
      fix G (l : list pydata) : Forall P l :=
        match l with
        | [] => Forall_nil P
        | x :: l' => Forall_cons x (F x) (G l')
        end in
    match data with
    | DTensor val => HT val
    | DOther v => HO v
    | DList items => HL items (all items)
    | DTuple items => HU items (all items)
    end.

(** Every address in an object, its members included. *)
Fixpoint addrs (x : pyobj) : list nat :=
  match x with
  | Atom _ _ => []
  | PyList a items => a :: flat_map addrs items
  | PyDict a entries => a :: flat_map (fun kv => addrs (snd kv)) entries
  | Instance a _ state => a :: flat_map (fun kv => addrs (snd kv)) state
  end.

Definition addrs_of_values (l : list (string * pyobj)) : list nat :=
  flat_map (fun kv => addrs (snd kv)) l.

(** The value of an object with its identities forgotten. *)
Fixpoint erase (x : pyobj) : pyobj :=
  match x with
  | Atom ty v => Atom ty v
  | PyList _ items => PyList 0 (map erase items)
  | PyDict _ entries => PyDict 0 (map (fun kv => (fst kv, erase (snd kv))) entries)
  | Instance _ ty state => Instance 0 ty (map (fun kv => (fst kv, erase (snd kv))) state)
  end.

Definition erase_values (l : list (string * pyobj)) : list (string * pyobj) :=
  map (fun kv => (fst kv, erase (snd kv))) l.

(** [deepcopy] over the members of a list, as [deepcopy] itself does it. *)
Fixpoint deepcopy_items (l : list pyobj) (n : nat) : list pyobj * nat :=
  match l with
  | [] => ([], n)
  | a :: l' =>
      let (a', n) := Copy.deepcopy a n in
      let (l'', n) := deepcopy_items l' n in
      (a' :: l'', n)
  end.

Definition pyobj_induction (P : pyobj -> Prop)
           (HA : forall ty v, P (Atom ty v))
           (HL : forall a items, Forall P items -> P (PyList a items))
           (HD : forall a entries,
               Forall (fun kv => P (snd kv)) entries -> P (PyDict a entries))
           (HI : forall a ty state,
               Forall (fun kv => P (snd kv)) state -> P (Instance a ty state))
  : forall x, P x :=
  fix F (x : pyobj) : P x :=
    let all :=
      fix G (l : list pyobj) : Forall P l :=
        match l with
        | [] => Forall_nil P
        | y :: l' => Forall_cons y (F y) (G l')
        end in
    let all_values :=
      fix G (l : list (string * pyobj)) : Forall (fun kv => P (snd kv)) l :=
        match l with
        | [] => Forall_nil _
        | kv :: l' => Forall_cons kv (F (snd kv)) (G l')
        end in
    match x with
    | Atom ty v => HA ty v
    | PyList a items => HL a items (all items)
    | PyDict a entries => HD a entries (all_values entries)
    | Instance a ty state => HI a ty state (all_values state)
    end.

(** [y] is a copy of [x] made of the addresses from [n] up to [n']. *)
Definition copied (x y : pyobj) (n n' : nat) : Prop :=
  n <= n' /\ erase y = erase x /\ Forall (fun a => n <= a < n') (addrs y).

Definition copied_values (l l' : list (string * pyobj)) (n n' : nat) : Prop :=
  n <= n'
  /\ erase_values l' = erase_values l
  /\ Forall (fun a => n <= a < n') (addrs_of_values l').

Definition a_callback : pyobj :=
  Instance 1 "ModelCheckpoint" [("monitor", Atom "str" 5); ("history", PyList 2 [])].

Definition trainer_kwargs : list (string * pyobj) :=
  [("max_steps", Atom "int" 100); ("callbacks", PyList 0 [a_callback])].

(** Kinds of calls in a trace of the optimizer-step hook. *)
Definition is_closure_call (c : step_call) : bool :=
  match c with call_closure => true | _ => false end.

Definition is_direct_step (c : step_call) : bool :=
  match c with call_optimizer_step _ _ => true | _ => false end.

Definition is_scaling_call (c : step_call) : bool :=
  match c with
  | call_copy_model_grads_to_main_grads _
  | call_scaler_unscale_ _ _
  | call_scaler_step _ _ _
  | call_scaler_update _ => true
  | _ => false
  end.

(** No tensor leaf is fp32. *)
Fixpoint no_fp32_leaf (data : pydata) : bool :=
  match data with
  | DTensor val =>
      match tensor_dtype val with float32 => false | _ => true end
  | DOther _ => true
  | DList items | DTuple items => forallb no_fp32_leaf items
  end.



(** A visit with the identity of the visited object forgotten. *)
Definition forget (v : Trainer.visit) : Trainer.visit :=
  Trainer.mkVisit (erase (Trainer.visited v)) (Trainer.tracked v).

Module PMP := PipelineMixedPrecision.

(** * Properties *)

(** ** The optimizer step *)

Lemma scaled_step_fp16 sc optimizer model closure kw :
  isinstance_MainParamsOptimizerWrapper optimizer = true ->
  fp32_grad_accumulation optimizer = Some false ->
  StepHook.scaled_step (Some sc) optimizer model closure kw
  = (Return PyNone, scaled_sequence sc optimizer model closure kw).
Proof.
  intros Hw Hacc. destruct optimizer as [n a|o acc c]; [discriminate|].
  simpl in Hacc. injection Hacc as ->.
  unfold StepHook.scaled_step, scaled_sequence.
  destruct closure as [[v|]]; destruct model as [n|n [|]]; reflexivity.
Qed.

Lemma not_delegated (self : MMP.t) optimizer :
  MMP.amp_02 self = true \/ isinstance_MainParamsOptimizerWrapper optimizer = true ->
  negb (MMP.amp_02 self) && negb (isinstance_MainParamsOptimizerWrapper optimizer) = false.
Proof.
  intros [H | H]; rewrite H; simpl; auto using andb_false_r.
Qed.

(** C1 (as stated) fails: with [amp_02] off and an optimizer that is not a
    [MainParamsOptimizerWrapper], [MegatronMixedPrecision.optimizer_step]
    hands the whole step to the parent class and runs none of the sequence
    itself. *)
Lemma step_order_counterexample :
  ~ stated_step_order (fp16_plugin false) adam gpt loss_closure [].
Proof.
  intros H. specialize (H the_scaler eq_refl eq_refl). discriminate H.
Qed.

(** C1 (amended).  When the optimizer is a [MainParamsOptimizerWrapper] whose
    [fp32_grad_accumulation] is false and the scaler is not [None], the hook
    of either plugin calls, in this order: the closure, the copy of the model
    gradients to the main gradients, the scaler's unscale, the after-closure
    hook, and then [scaler.step] and [scaler.update] unless the model is a
    [LightningModule] with automatic optimization whose closure returned
    [None]. *)
Theorem optimizer_step_scaled_order sc optimizer model closure kw :
  isinstance_MainParamsOptimizerWrapper optimizer = true ->
  fp32_grad_accumulation optimizer = Some false ->
  (forall self : MMP.t,
     MMP.scaler self = Some sc ->
     MMP.optimizer_step self optimizer model closure kw
     = (Return PyNone, scaled_sequence sc optimizer model closure kw))
  /\
  (forall self : MHP.t,
     MHP.scaler self = Some sc ->
     MHP.optimizer_step self optimizer model closure kw
     = (Return PyNone, scaled_sequence sc optimizer model closure kw)).
Proof.
  intros Hw Hacc. split; intros self Hsc.
  - unfold MMP.optimizer_step.
    rewrite (not_delegated self optimizer (or_intror Hw)), Hsc.
    now apply scaled_step_fp16.
  - unfold MHP.optimizer_step.
    rewrite Hw, Hsc, (@scaled_step_fp16 sc optimizer model closure kw Hw Hacc).
    reflexivity.
Qed.

Lemma optimizer_step_scaled_order_witness :
  MMP.optimizer_step (fp16_plugin true) wrapped_adam gpt loss_closure []
  = (Return PyNone,
     [ call_closure;
       call_copy_model_grads_to_main_grads wrapped_adam;
       call_scaler_unscale_ the_scaler wrapped_adam;
       call__after_closure gpt wrapped_adam;
       call_scaler_step the_scaler wrapped_adam [];
       call_scaler_update the_scaler ])
  /\
  MHP.optimizer_step (MHP.mk "16-mixed" "cuda" (Some the_scaler)) wrapped_adam gpt
                     (mkClosure None) []
  = (Return PyNone,
     [ call_closure;
       call_copy_model_grads_to_main_grads wrapped_adam;
       call_scaler_unscale_ the_scaler wrapped_adam;
       call__after_closure gpt wrapped_adam ]).
Proof.
  split.
  - exact (proj1 (optimizer_step_scaled_order the_scaler wrapped_adam gpt loss_closure []
                    eq_refl eq_refl)
                 (fp16_plugin true) eq_refl).
  - exact (proj2 (optimizer_step_scaled_order the_scaler wrapped_adam gpt (mkClosure None) []
                    eq_refl eq_refl)
                 (MHP.mk "16-mixed" "cuda" (Some the_scaler)) eq_refl).
Defined.

(** C2 (as stated) fails: with [amp_02] off and an optimizer that is not a
    [MainParamsOptimizerWrapper], the bf16 plugin asserts nothing about
    [fp32_grad_accumulation]; the step goes to the parent class. *)
Lemma preconditions_counterexample :
  ~ stated_preconditions (bf16_plugin false) adam gpt loss_closure [].
Proof.
  intros [H _]. destruct (H eq_refl) as [msg Hmsg]; discriminate.
Qed.

(** C2 (amended).  When the step is not delegated to the parent class
    ([amp_02] is true or the optimizer is a [MainParamsOptimizerWrapper]) and
    the optimizer has the attribute [fp32_grad_accumulation]:
    without a scaler the hook raises [AssertionError] exactly when the
    attribute is false, with a scaler exactly when it is true, and it raises
    it before any call is made (closure, optimizer and scaler untouched); in
    the other cases no [AssertionError] is raised.
    [MegatronHalfPrecision.optimizer_step] raises [AssertionError] before any
    call whenever the attribute is not true without a scaler, or not false
    with one. *)
Theorem optimizer_step_preconditions optimizer model closure kw b :
  fp32_grad_accumulation optimizer = Some b ->
  (forall self : MMP.t,
     MMP.amp_02 self = true \/ isinstance_MainParamsOptimizerWrapper optimizer = true ->
     match MMP.scaler self with
     | None =>
         if b
         then forall msg,
             Calls.outcome (MMP.optimizer_step self optimizer model closure kw)
             <> Raise (AssertionError msg)
         else MMP.optimizer_step self optimizer model closure kw
              = (Raise (AssertionError "BF16 uses FP32 grad accumulation"), [])
     | Some _ =>
         if b
         then MMP.optimizer_step self optimizer model closure kw
              = (Raise (AssertionError "FP16 uses FP16 grad accumulation"), [])
         else forall msg,
             Calls.outcome (MMP.optimizer_step self optimizer model closure kw)
             <> Raise (AssertionError msg)
     end)
  /\
  (forall self : MHP.t,
     match MHP.scaler self with
     | None =>
         b = false ->
         exists msg, MHP.optimizer_step self optimizer model closure kw
                     = (Raise (AssertionError msg), [])
     | Some _ =>
         b = true ->
         exists msg, MHP.optimizer_step self optimizer model closure kw
                     = (Raise (AssertionError msg), [])
     end).
Proof.
  intros Hacc. split.
  - intros self Hw. unfold MMP.optimizer_step.
    rewrite (not_delegated self optimizer Hw).
    unfold StepHook.scaled_step, StepHook.get_fp32_grad_accumulation.
    rewrite Hacc.
    destruct (MMP.scaler self) as [sc|], b; simpl; try reflexivity.
    + intros msg.
      destruct optimizer as [n a|o acc c]; simpl; [discriminate|].
      destruct (negb (isinstance_LightningModule model)
                || negb (automatic_optimization model)
                || negb (StepHook.is_None (closure_returns closure)));
        discriminate.
    + intros msg. discriminate.
  - intros self. unfold MHP.optimizer_step, StepHook.scaled_step,
      StepHook.get_fp32_grad_accumulation.
    rewrite Hacc.
    destruct (MHP.scaler self) as [sc|]; intros ->;
      destruct (isinstance_MainParamsOptimizerWrapper optimizer);
      eexists; reflexivity.
Qed.

Lemma optimizer_step_preconditions_witness :
  MMP.optimizer_step (bf16_plugin true) adam gpt loss_closure []
  = (Raise (AssertionError "BF16 uses FP32 grad accumulation"), [])
  /\
  exists msg,
    MHP.optimizer_step (MHP.mk "bf16-mixed" "cuda" None) wrapped_adam gpt loss_closure []
    = (Raise (AssertionError msg), []).
Proof.
  split.
  - exact (proj1 (optimizer_step_preconditions adam gpt loss_closure [] eq_refl)
                 (bf16_plugin true) (or_introl eq_refl)).
  - exact (proj2 (optimizer_step_preconditions wrapped_adam gpt loss_closure [] eq_refl)
                 (MHP.mk "bf16-mixed" "cuda" None) eq_refl).
Defined.

(** ** Connecting the plugin: wrapping the first optimizer *)

Lemma deref_alloc {A} (h : Store.t A) (items : list A) :
  Store.deref (fst (Store.alloc h items)) (snd (Store.alloc h items)) = Some items.
Proof.
  unfold Store.deref, Store.alloc; simpl.
  rewrite nth_error_app2 by lia. now rewrite Nat.sub_diag.
Qed.

Lemma deref_alloc_old {A} (h : Store.t A) (items : list A) (r : Store.ref) l :
  Store.deref h r = Some l ->
  Store.deref (h ++ [items]) r = Some l.
Proof.
  unfold Store.deref. intros H. rewrite nth_error_app1; auto.
  apply nth_error_Some. congruence.
Qed.

Lemma list_set_last {A} (h : list A) (x v : A) :
  Store.list_set (h ++ [x]) (length h) v = h ++ [v].
Proof.
  induction h as [|y h IH]; simpl; [reflexivity | now rewrite IH].
Qed.

Lemma setitem_alloc {A} (h : Store.t A) (o v : A) (rest : list A) :
  Store.setitem (h ++ [o :: rest]) (length h) 0 v = h ++ [v :: rest].
Proof.
  unfold Store.setitem.
  change (Store.deref (h ++ [o :: rest]) (length h))
    with (Store.deref (fst (Store.alloc h (o :: rest))) (snd (Store.alloc h (o :: rest)))).
  rewrite deref_alloc. simpl. apply list_set_last.
Qed.

Lemma deref_lt {A} (h : Store.t A) (r : Store.ref) l :
  Store.deref h r = Some l -> r < length h.
Proof.
  unfold Store.deref. intros H. apply nth_error_Some. congruence.
Qed.

(** C3.  [connect] wraps exactly when [amp_02] is true, the optimizer list is
    not empty and its first element is not a [MainParamsOptimizerWrapper]:
    it then returns the model and the schedulers as they are with a new list
    (a new object of the store, the input list left as it was) that holds
    [MainParamsOptimizerWrapper(first, fp32_grad_accum=True,
    contiguous_grad_bucket=True)] followed by the remaining optimizers; in
    every other case it returns its three arguments and leaves the store
    alone. *)
Theorem connect_wraps_first_optimizer {L : Type} (self : MMP.t) (model : nn_Module)
        (optimizers : Store.ref) (lr_schedulers : L) (h : Store.t Optimizer)
        (items : list Optimizer) :
  Store.deref h optimizers = Some items ->
  (forall o rest,
     items = o :: rest ->
     MMP.amp_02 self = true ->
     isinstance_MainParamsOptimizerWrapper o = false ->
     exists (_optimizers : Store.ref) (h' : Store.t Optimizer),
       MMP.connect self model optimizers lr_schedulers h
       = Some ((model, _optimizers, lr_schedulers), h')
       /\ _optimizers <> optimizers
       /\ Store.deref h _optimizers = None
       /\ Store.deref h' _optimizers
          = Some (MainParamsOptimizerWrapper o true true :: rest)
       /\ forall r l, Store.deref h r = Some l -> Store.deref h' r = Some l)
  /\
  ((items = []
    \/ MMP.amp_02 self = false
    \/ exists o rest, items = o :: rest /\ isinstance_MainParamsOptimizerWrapper o = true) ->
   MMP.connect self model optimizers lr_schedulers h
   = Some ((model, optimizers, lr_schedulers), h)).
Proof.
  intros Hd. split.
  - intros o rest -> Hamp Hw.
    exists (length h), (h ++ [MainParamsOptimizerWrapper o true true :: rest]).
    unfold MMP.connect. rewrite Hd. simpl. rewrite Hamp, Hw. simpl.
    change (Store.deref (h ++ [o :: rest]) (length h))
      with (Store.deref (fst (Store.alloc h (o :: rest)))
                        (snd (Store.alloc h (o :: rest)))).
    rewrite deref_alloc, setitem_alloc.
    unfold MMP.convert_optimizer. rewrite Hw, Hamp. simpl.
    repeat split.
    + apply deref_lt in Hd. lia.
    + unfold Store.deref. apply nth_error_None. lia.
    + apply (deref_alloc h (MainParamsOptimizerWrapper o true true :: rest)).
    + intros r l. apply deref_alloc_old.
  - intros H. unfold MMP.connect. rewrite Hd.
    destruct H as [-> | [Hamp | (o & rest & -> & Hw)]].
    + reflexivity.
    + rewrite Hamp. simpl. now rewrite orb_true_r.
    + simpl. rewrite Hw. now rewrite orb_true_r.
Qed.

Lemma connect_wraps_first_optimizer_witness :
  (exists (_optimizers : Store.ref) (h' : Store.t Optimizer),
     MMP.connect (fp16_plugin true) (mk_nn_Module []) 0 tt [[adam; wrapped_adam]]
     = Some ((mk_nn_Module [], _optimizers, tt), h')
     /\ _optimizers <> 0
     /\ Store.deref [[adam; wrapped_adam]] _optimizers = None
     /\ Store.deref h' _optimizers
        = Some [MainParamsOptimizerWrapper adam true true; wrapped_adam]
     /\ forall r l,
          Store.deref [[adam; wrapped_adam]] r = Some l -> Store.deref h' r = Some l)
  /\
  MMP.connect (fp16_plugin true) (mk_nn_Module []) 1 tt [[adam]; [wrapped_adam; adam]]
  = Some ((mk_nn_Module [], 1, tt), [[adam]; [wrapped_adam; adam]]).
Proof.
  split.
  - exact (proj1 (connect_wraps_first_optimizer (fp16_plugin true) (mk_nn_Module []) 0 tt
                    [[adam; wrapped_adam]] eq_refl)
                 adam [wrapped_adam] eq_refl eq_refl eq_refl).
  - refine (proj2 (connect_wraps_first_optimizer (fp16_plugin true) (mk_nn_Module []) 1 tt
                     [[adam]; [wrapped_adam; adam]] eq_refl) _).
    right; right. exists wrapped_adam, [adam]. split; reflexivity.
Defined.

(** ** Construction of the plugin *)

Section Construction.
Variable super___init__ :
  string -> string -> option GradScaler -> MMP.attrs -> result unit * MMP.attrs.
Variable set_autocast_gpu_dtype : option torch_dtype -> result unit.

Lemma parent_records_accepts precision scaler :
  parent_records super___init__ precision scaler ->
  parent_accepts super___init__ precision scaler.
Proof.
  intros H device self. now rewrite H.
Qed.

(** The scaler that [__init__] hands to the parent. *)
Lemma init_scaler_attr precision amp_02 device scaler self :
  (precision = "bf16-mixed" ->
   parent_records super___init__ "bf16-mixed" None ->
   MMP.a_scaler (snd (MMP.__init__ super___init__ set_autocast_gpu_dtype
                         precision amp_02 device scaler self)) = Some None)
  /\
  (precision <> "bf16-mixed" ->
   parent_records super___init__ precision (Some (mkGradScaler (2 ^ 32) 1000 2)) ->
   MMP.a_scaler (snd (MMP.__init__ super___init__ set_autocast_gpu_dtype
                         precision amp_02 device scaler self))
   = Some (Some (mkGradScaler (2 ^ 32) 1000 2))).
Proof.
  unfold MMP.__init__. split.
  - intros -> Hrec. simpl. rewrite Hrec. simpl.
    destruct (set_autocast_gpu_dtype (Some bfloat16)); reflexivity.
  - intros Hne Hrec. destruct (String.eqb_spec precision "bf16-mixed") as [|_];
      [contradiction|].
    rewrite Hrec. simpl.
    destruct (precision =? "16-mixed"); simpl.
    + destruct (set_autocast_gpu_dtype (Some float16)); reflexivity.
    + destruct (set_autocast_gpu_dtype None); reflexivity.
Qed.

Lemma init_ignores_scaler precision amp_02 device scaler scaler' self :
  MMP.__init__ super___init__ set_autocast_gpu_dtype precision amp_02 device scaler self
  = MMP.__init__ super___init__ set_autocast_gpu_dtype precision amp_02 device scaler' self.
Proof. reflexivity. Qed.

(** What [__init__] leaves on the object for the two supported precisions. *)
Lemma init_supported precision amp_02 device scaler self :
  (precision = "16-mixed" ->
   parent_accepts super___init__ "16-mixed" (Some (mkGradScaler (2 ^ 32) 1000 2)) ->
   set_autocast_gpu_dtype (Some float16) = Return tt ->
   let r := MMP.__init__ super___init__ set_autocast_gpu_dtype
                         precision amp_02 device scaler self in
   fst r = Return tt
   /\ MMP.a_dtype (snd r) = Some (Some float16)
   /\ MMP.a_float16_convertor (snd r) = Some tensor_half
   /\ MMP.a_amp_02 (snd r) = Some amp_02)
  /\
  (precision = "bf16-mixed" ->
   parent_accepts super___init__ "bf16-mixed" None ->
   set_autocast_gpu_dtype (Some bfloat16) = Return tt ->
   let r := MMP.__init__ super___init__ set_autocast_gpu_dtype
                         precision amp_02 device scaler self in
   fst r = Return tt
   /\ MMP.a_dtype (snd r) = Some (Some bfloat16)
   /\ MMP.a_float16_convertor (snd r) = Some tensor_bfloat16
   /\ MMP.a_amp_02 (snd r) = Some amp_02).
Proof.
  unfold MMP.__init__. split; intros -> Hacc Hset; simpl.
  - specialize (Hacc device self).
    destruct (super___init__ "16-mixed" device _ self) as [[u|e] self'];
      simpl in Hacc; [|discriminate].
    rewrite Hset. simpl. repeat split.
  - specialize (Hacc device self).
    destruct (super___init__ "bf16-mixed" device None self) as [[u|e] self'];
      simpl in Hacc; [|discriminate].
    rewrite Hset. simpl. repeat split.
Qed.

(** For any other precision [__init__] raises, whatever the collaborators do. *)
Lemma init_unsupported precision amp_02 device scaler self :
  precision <> "16-mixed" ->
  precision <> "bf16-mixed" ->
  (exists e, fst (MMP.__init__ super___init__ set_autocast_gpu_dtype
                         precision amp_02 device scaler self) = Raise e)
  /\
  (parent_accepts super___init__ precision (Some (mkGradScaler (2 ^ 32) 1000 2)) ->
   set_autocast_gpu_dtype None = Return tt ->
   fst (MMP.__init__ super___init__ set_autocast_gpu_dtype
                         precision amp_02 device scaler self)
   = Raise (UnboundLocalError "float16_convertor")).
Proof.
  intros H16 Hbf. unfold MMP.__init__.
  destruct (String.eqb_spec precision "bf16-mixed") as [|_]; [contradiction|].
  destruct (String.eqb_spec precision "16-mixed") as [|_]; [contradiction|].
  split.
  - destruct (super___init__ precision device _ self) as [[u|e] self'].
    + destruct (set_autocast_gpu_dtype None) as [u'|e]; eexists; reflexivity.
    + eexists; reflexivity.
  - intros Hacc Hset. specialize (Hacc device self).
    destruct (super___init__ precision device _ self) as [[u|e] self'];
      simpl in Hacc; [|discriminate].
    now rewrite Hset.
Qed.

End Construction.

(** C4.  Precision ["16-mixed"] sets [self.dtype] to [torch.float16] and
    installs the convertor [val.half()]; ["bf16-mixed"] sets it to
    [torch.bfloat16] and installs [val.bfloat16()] (the parent's initialiser
    and [torch.set_autocast_gpu_dtype] returning normally).  [convert_module]
    returns [module.bfloat16()] for ["bf16-mixed"], [module.half()] for
    ["16-mixed"], and the module itself for any other precision. *)
Theorem precision_selects_dtype
        (super___init__ :
           string -> string -> option GradScaler -> MMP.attrs -> result unit * MMP.attrs)
        (set_autocast_gpu_dtype : option torch_dtype -> result unit)
        (amp_02 : bool) (device : string) (scaler : MMP.scaler_arg) (self : MMP.attrs) :
  (parent_accepts super___init__ "16-mixed" (Some (mkGradScaler (2 ^ 32) 1000 2)) ->
   set_autocast_gpu_dtype (Some float16) = Return tt ->
   let r := MMP.__init__ super___init__ set_autocast_gpu_dtype
                         "16-mixed" amp_02 device scaler self in
   fst r = Return tt
   /\ MMP.a_dtype (snd r) = Some (Some float16)
   /\ MMP.a_float16_convertor (snd r) = Some tensor_half
   /\ forall val, tensor_dtype (tensor_half val) = float16)
  /\
  (parent_accepts super___init__ "bf16-mixed" None ->
   set_autocast_gpu_dtype (Some bfloat16) = Return tt ->
   let r := MMP.__init__ super___init__ set_autocast_gpu_dtype
                         "bf16-mixed" amp_02 device scaler self in
   fst r = Return tt
   /\ MMP.a_dtype (snd r) = Some (Some bfloat16)
   /\ MMP.a_float16_convertor (snd r) = Some tensor_bfloat16
   /\ forall val, tensor_dtype (tensor_bfloat16 val) = bfloat16)
  /\
  (forall (plugin : MMP.t) (module : nn_Module),
     (MMP.precision plugin = "bf16-mixed" ->
      MMP.convert_module plugin module = module_bfloat16 module)
     /\ (MMP.precision plugin = "16-mixed" ->
         MMP.convert_module plugin module = module_half module)
     /\ (MMP.precision plugin <> "bf16-mixed" ->
         MMP.precision plugin <> "16-mixed" ->
         MMP.convert_module plugin module = module)).
Proof.
  split; [|split].
  - intros Hacc Hset.
    destruct (proj1 (init_supported super___init__ set_autocast_gpu_dtype
                       "16-mixed" amp_02 device scaler self) eq_refl Hacc Hset)
      as (H1 & H2 & H3 & _).
    cbv zeta. auto.
  - intros Hacc Hset.
    destruct (proj2 (init_supported super___init__ set_autocast_gpu_dtype
                       "bf16-mixed" amp_02 device scaler self) eq_refl Hacc Hset)
      as (H1 & H2 & H3 & _).
    cbv zeta. auto.
  - intros plugin module. unfold MMP.convert_module. repeat split.
    + now intros ->.
    + now intros ->.
    + intros Hbf H16.
      destruct (String.eqb_spec (MMP.precision plugin) "bf16-mixed"); [contradiction|].
      destruct (String.eqb_spec (MMP.precision plugin) "16-mixed"); [contradiction|].
      reflexivity.
Qed.

Lemma precision_selects_dtype_witness :
  (let r := MMP.__init__ Lightning.MixedPrecision___init__ Lightning.set_autocast_gpu_dtype
                         "16-mixed" true "cuda" None MMP.blank in
   fst r = Return tt
   /\ MMP.a_dtype (snd r) = Some (Some float16)
   /\ MMP.a_float16_convertor (snd r) = Some tensor_half
   /\ forall val, tensor_dtype (tensor_half val) = float16)
  /\
  (let r := MMP.__init__ Lightning.MixedPrecision___init__ Lightning.set_autocast_gpu_dtype
                         "bf16-mixed" true "cuda" None MMP.blank in
   fst r = Return tt
   /\ MMP.a_dtype (snd r) = Some (Some bfloat16)
   /\ MMP.a_float16_convertor (snd r) = Some tensor_bfloat16
   /\ forall val, tensor_dtype (tensor_bfloat16 val) = bfloat16)
  /\
  MMP.convert_module (bf16_plugin true)
                     (mk_nn_Module [mkTensor float32 1; mkTensor int64 2])
  = mk_nn_Module [mkTensor bfloat16 1; mkTensor int64 2].
Proof.
  pose proof (precision_selects_dtype Lightning.MixedPrecision___init__
                Lightning.set_autocast_gpu_dtype true "cuda" None MMP.blank)
    as (H16 & Hbf & Hmod).
  split; [|split].
  - apply H16; [intros d a; reflexivity | reflexivity].
  - apply Hbf; [intros d a; reflexivity | reflexivity].
  - exact (proj1 (Hmod (bf16_plugin true)
                       (mk_nn_Module [mkTensor float32 1; mkTensor int64 2])) eq_refl).
Defined.

(** C5.  The scaler kept by the plugin is determined by the precision: with
    ["bf16-mixed"] the object is given no scaler ([None]); with any other
    precision it is given [GradScaler(init_scale=2**32, growth_interval=1000,
    hysteresis=2)] (the parent's initialiser recording what it is handed). *)
Theorem scaler_determined_by_precision
        (super___init__ :
           string -> string -> option GradScaler -> MMP.attrs -> result unit * MMP.attrs)
        (set_autocast_gpu_dtype : option torch_dtype -> result unit)
        (precision : string) (amp_02 : bool) (device : string)
        (scaler : MMP.scaler_arg) (self : MMP.attrs) :
  (precision = "bf16-mixed" ->
   parent_records super___init__ "bf16-mixed" None ->
   MMP.a_scaler (snd (MMP.__init__ super___init__ set_autocast_gpu_dtype
                                   precision amp_02 device scaler self))
   = Some None)
  /\
  (precision <> "bf16-mixed" ->
   parent_records super___init__ precision (Some (mkGradScaler (2 ^ 32) 1000 2)) ->
   MMP.a_scaler (snd (MMP.__init__ super___init__ set_autocast_gpu_dtype
                                   precision amp_02 device scaler self))
   = Some (Some (mkGradScaler (2 ^ 32) 1000 2))).
Proof.
  apply init_scaler_attr.
Qed.

Lemma scaler_determined_by_precision_witness :
  MMP.a_scaler (snd (MMP.__init__ Lightning.MixedPrecision___init__
                                  Lightning.set_autocast_gpu_dtype
                                  "bf16-mixed" true "cuda" None MMP.blank))
  = Some None
  /\
  MMP.a_scaler (snd (MMP.__init__ Lightning.MixedPrecision___init__
                                  Lightning.set_autocast_gpu_dtype
                                  "16-mixed" true "cuda" None MMP.blank))
  = Some (Some (mkGradScaler 4294967296 1000 2)).
Proof.
  split.
  - apply (proj1 (scaler_determined_by_precision Lightning.MixedPrecision___init__
                    Lightning.set_autocast_gpu_dtype "bf16-mixed" true "cuda" None
                    MMP.blank));
      [reflexivity | intros d a; reflexivity].
  - apply (proj2 (scaler_determined_by_precision Lightning.MixedPrecision___init__
                    Lightning.set_autocast_gpu_dtype "16-mixed" true "cuda" None
                    MMP.blank));
      [discriminate | intros d a; reflexivity].
Defined.

(** C9.  The [scaler] argument of [__init__] is ignored: two constructions
    that differ only in it run identically and leave the same object, and the
    scaler on that object is the one fixed by the precision, [None] for
    ["bf16-mixed"] and [GradScaler(init_scale=2**32, growth_interval=1000,
    hysteresis=2)] otherwise, also when the caller passed a scaler of its
    own. *)
Theorem scaler_argument_ignored
        (super___init__ :
           string -> string -> option GradScaler -> MMP.attrs -> result unit * MMP.attrs)
        (set_autocast_gpu_dtype : option torch_dtype -> result unit)
        (precision : string) (amp_02 : bool) (device : string)
        (scaler scaler' : MMP.scaler_arg) (self : MMP.attrs) :
  MMP.__init__ super___init__ set_autocast_gpu_dtype precision amp_02 device scaler self
  = MMP.__init__ super___init__ set_autocast_gpu_dtype precision amp_02 device scaler' self
  /\
  (precision = "bf16-mixed" ->
   parent_records super___init__ "bf16-mixed" None ->
   forall caller_scaler : GradScaler,
     MMP.a_scaler (snd (MMP.__init__ super___init__ set_autocast_gpu_dtype
                                     precision amp_02 device
                                     (Some (inl caller_scaler)) self))
     = Some None)
  /\
  (precision <> "bf16-mixed" ->
   parent_records super___init__ precision (Some (mkGradScaler (2 ^ 32) 1000 2)) ->
   forall caller_scaler : GradScaler,
     MMP.a_scaler (snd (MMP.__init__ super___init__ set_autocast_gpu_dtype
                                     precision amp_02 device
                                     (Some (inl caller_scaler)) self))
     = Some (Some (mkGradScaler (2 ^ 32) 1000 2))).
Proof.
  split; [apply init_ignores_scaler | split].
  - intros Hp Hrec caller_scaler.
    now apply (proj1 (init_scaler_attr super___init__ set_autocast_gpu_dtype
                        precision amp_02 device (Some (inl caller_scaler)) self)).
  - intros Hp Hrec caller_scaler.
    now apply (proj2 (init_scaler_attr super___init__ set_autocast_gpu_dtype
                        precision amp_02 device (Some (inl caller_scaler)) self)).
Qed.

Lemma scaler_argument_ignored_witness :
  MMP.a_scaler (snd (MMP.__init__ Lightning.MixedPrecision___init__
                                  Lightning.set_autocast_gpu_dtype
                                  "bf16-mixed" true "cuda"
                                  (Some (inl (mkGradScaler 65536 2000 1))) MMP.blank))
  = Some None
  /\
  MMP.a_scaler (snd (MMP.__init__ Lightning.MixedPrecision___init__
                                  Lightning.set_autocast_gpu_dtype
                                  "16-mixed" true "cuda"
                                  (Some (inl (mkGradScaler 65536 2000 1))) MMP.blank))
  = Some (Some (mkGradScaler 4294967296 1000 2)).
Proof.
  split.
  - apply (proj1 (proj2 (scaler_argument_ignored Lightning.MixedPrecision___init__
                           Lightning.set_autocast_gpu_dtype "bf16-mixed" true "cuda"
                           None None MMP.blank)));
      [reflexivity | intros d a; reflexivity].
  - apply (proj2 (proj2 (scaler_argument_ignored Lightning.MixedPrecision___init__
                           Lightning.set_autocast_gpu_dtype "16-mixed" true "cuda"
                           None None MMP.blank)));
      [discriminate | intros d a; reflexivity].
Defined.

(** C10.  [__init__] completes only for the two supported precisions.  For
    any other precision it raises, whatever the parent's initialiser and
    torch do; when those two return normally the error is the unbound local
    [float16_convertor], read by [self.float16_convertor = float16_convertor].
    For ["16-mixed"] and ["bf16-mixed"] it returns normally (the parent's
    initialiser and [torch.set_autocast_gpu_dtype] returning normally). *)
Theorem init_supported_precisions_only
        (super___init__ :
           string -> string -> option GradScaler -> MMP.attrs -> result unit * MMP.attrs)
        (set_autocast_gpu_dtype : option torch_dtype -> result unit)
        (precision : string) (amp_02 : bool) (device : string)
        (scaler : MMP.scaler_arg) (self : MMP.attrs) :
  (precision <> "16-mixed" ->
   precision <> "bf16-mixed" ->
   (exists e,
      fst (MMP.__init__ super___init__ set_autocast_gpu_dtype
                        precision amp_02 device scaler self) = Raise e)
   /\
   (parent_accepts super___init__ precision (Some (mkGradScaler (2 ^ 32) 1000 2)) ->
    set_autocast_gpu_dtype None = Return tt ->
    fst (MMP.__init__ super___init__ set_autocast_gpu_dtype
                      precision amp_02 device scaler self)
    = Raise (UnboundLocalError "float16_convertor")))
  /\
  (precision = "16-mixed" ->
   parent_accepts super___init__ "16-mixed" (Some (mkGradScaler (2 ^ 32) 1000 2)) ->
   set_autocast_gpu_dtype (Some float16) = Return tt ->
   fst (MMP.__init__ super___init__ set_autocast_gpu_dtype
                     precision amp_02 device scaler self) = Return tt)
  /\
  (precision = "bf16-mixed" ->
   parent_accepts super___init__ "bf16-mixed" None ->
   set_autocast_gpu_dtype (Some bfloat16) = Return tt ->
   fst (MMP.__init__ super___init__ set_autocast_gpu_dtype
                     precision amp_02 device scaler self) = Return tt).
Proof.
  split; [|split].
  - apply init_unsupported.
  - intros Hp Hacc Hset.
    apply (proj1 (init_supported super___init__ set_autocast_gpu_dtype
                    precision amp_02 device scaler self) Hp Hacc Hset).
  - intros Hp Hacc Hset.
    apply (proj2 (init_supported super___init__ set_autocast_gpu_dtype
                    precision amp_02 device scaler self) Hp Hacc Hset).
Qed.

Lemma init_supported_precisions_only_witness :
  fst (MMP.__init__ Lightning.MixedPrecision___init__ Lightning.set_autocast_gpu_dtype
                    "32" true "cuda" None MMP.blank)
  = Raise (UnboundLocalError "float16_convertor")
  /\
  fst (MMP.__init__ Lightning.MixedPrecision___init__ Lightning.set_autocast_gpu_dtype
                    "16-mixed" true "cuda" None MMP.blank) = Return tt
  /\
  fst (MMP.__init__ Lightning.MixedPrecision___init__ Lightning.set_autocast_gpu_dtype
                    "bf16-mixed" true "cuda" None MMP.blank) = Return tt.
Proof.
  split; [|split].
  - apply (proj1 (init_supported_precisions_only Lightning.MixedPrecision___init__
                    Lightning.set_autocast_gpu_dtype "32" true "cuda" None MMP.blank));
      [discriminate | discriminate | intros d a; reflexivity | reflexivity].
  - apply (proj1 (proj2 (init_supported_precisions_only Lightning.MixedPrecision___init__
                           Lightning.set_autocast_gpu_dtype "16-mixed" true "cuda" None
                           MMP.blank)));
      [reflexivity | intros d a; reflexivity | reflexivity].
  - apply (proj2 (proj2 (init_supported_precisions_only Lightning.MixedPrecision___init__
                           Lightning.set_autocast_gpu_dtype "bf16-mixed" true "cuda" None
                           MMP.blank)));
      [reflexivity | intros d a; reflexivity | reflexivity].
Defined.

(** ** Casting the inputs and outputs of forward *)

Lemma fp32_to_float16_cast (half : torch_dtype) (convertor : Tensor -> Tensor) data :
  (forall val, convertor val = tensor_to half val) ->
  Megatron.fp32_to_float16 data convertor = cast_leaves (fp32_to half) data.
Proof.
  intros Hc. unfold Megatron.fp32_to_float16.
  induction data as [val|v|items IH|items IH] using pydata_induction; simpl.
  - destruct val as [[] z]; simpl; try reflexivity. now rewrite Hc.
  - reflexivity.
  - f_equal. now apply map_ext_Forall.
  - f_equal. now apply map_ext_Forall.
Qed.

Lemma float16_to_fp32_cast data :
  Megatron.float16_to_fp32 data = cast_leaves half_to_fp32 data.
Proof.
  unfold Megatron.float16_to_fp32.
  induction data as [val|v|items IH|items IH] using pydata_induction; simpl.
  - destruct val as [[] z]; reflexivity.
  - reflexivity.
  - f_equal. now apply map_ext_Forall.
  - f_equal. now apply map_ext_Forall.
Qed.

Lemma map_id_Forall {A} (f : A -> A) (p : A -> bool) (l : list A) :
  Forall (fun x => p x = true -> f x = x) l ->
  forallb p l = true -> map f l = l.
Proof.
  induction 1 as [|x l Hx Hl IH]; simpl; [reflexivity|].
  intros H. apply andb_true_iff in H as [Hp Hr].
  now rewrite (Hx Hp), (IH Hr).
Qed.

(** C6.  [convert_input] is [fp32_to_float16(data, self.float16_convertor)]:
    it casts every fp32 tensor leaf with the plugin's convertor, so to the
    plugin's half-precision dtype, and keeps the nesting and every other
    leaf; [convert_output] is [float16_to_fp32(data)]: it casts every fp16
    or bf16 leaf to fp32 and keeps the nesting and every other leaf. *)
Theorem convert_input_output_casts (self : MMP.t) (data : pydata) :
  MMP.convert_input self data = Megatron.fp32_to_float16 data (MMP.float16_convertor self)
  /\ MMP.convert_output self data = Megatron.float16_to_fp32 data
  /\ MMP.convert_output self data = cast_leaves half_to_fp32 data
  /\ forall half,
       (forall val, MMP.float16_convertor self val = tensor_to half val) ->
       MMP.convert_input self data = cast_leaves (fp32_to half) data.
Proof.
  unfold MMP.convert_input, MMP.convert_output.
  repeat split; auto using float16_to_fp32_cast, fp32_to_float16_cast.
Qed.

Lemma convert_input_output_casts_witness :
  MMP.convert_input (bf16_plugin true)
    (DTuple [DTensor (mkTensor float32 1); DList [DTensor (mkTensor int64 2); DOther 3]])
  = cast_leaves (fp32_to bfloat16)
      (DTuple [DTensor (mkTensor float32 1); DList [DTensor (mkTensor int64 2); DOther 3]]).
Proof.
  destruct (convert_input_output_casts (bf16_plugin true)
              (DTuple [DTensor (mkTensor float32 1);
                       DList [DTensor (mkTensor int64 2); DOther 3]]))
    as (_ & _ & _ & H).
  exact (H bfloat16 (fun val => eq_refl)).
Defined.

(** ** Capturing the trainer's configuration *)

Lemma deepcopy_PyList a items n :
  Copy.deepcopy (PyList a items) n
  = (PyList n (fst (deepcopy_items items (S n))), snd (deepcopy_items items (S n))).
Proof.
  change (Copy.deepcopy (PyList a items) n)
    with (let (y, n') := deepcopy_items items (S n) in (PyList n y, n')).
  now destruct (deepcopy_items items (S n)).
Qed.

Lemma deepcopy_PyDict a entries n :
  Copy.deepcopy (PyDict a entries) n
  = (PyDict n (fst (Copy.deepcopy_values entries (S n))),
     snd (Copy.deepcopy_values entries (S n))).
Proof.
  change (Copy.deepcopy (PyDict a entries) n)
    with (let (y, n') := Copy.deepcopy_values entries (S n) in (PyDict n y, n')).
  now destruct (Copy.deepcopy_values entries (S n)).
Qed.

Lemma deepcopy_Instance a ty state n :
  Copy.deepcopy (Instance a ty state) n
  = (Instance n ty (fst (Copy.deepcopy_values state (S n))),
     snd (Copy.deepcopy_values state (S n))).
Proof.
  change (Copy.deepcopy (Instance a ty state) n)
    with (let (y, n') := Copy.deepcopy_values state (S n) in (Instance n ty y, n')).
  now destruct (Copy.deepcopy_values state (S n)).
Qed.

Lemma Forall_range_widen (l : list nat) (n m n' m' : nat) :
  n' <= n -> m <= m' ->
  Forall (fun a => n <= a < m) l -> Forall (fun a => n' <= a < m') l.
Proof.
  intros Hn Hm. apply Forall_impl. intros a Ha. lia.
Qed.

Lemma deepcopy_items_copied items :
  Forall (fun x => forall n,
              copied x (fst (Copy.deepcopy x n)) n (snd (Copy.deepcopy x n))) items ->
  forall n,
    n <= snd (deepcopy_items items n)
    /\ map erase (fst (deepcopy_items items n)) = map erase items
    /\ Forall (fun a => n <= a < snd (deepcopy_items items n))
              (flat_map addrs (fst (deepcopy_items items n))).
Proof.
  induction 1 as [|x l Hx Hl IH]; intros n; simpl.
  - repeat split; auto.
  - specialize (Hx n). destruct (Copy.deepcopy x n) as [x' n1]; simpl in Hx.
    specialize (IH n1). destruct (deepcopy_items l n1) as [l' n2]; simpl in *.
    destruct Hx as (Hle1 & He1 & Ha1), IH as (Hle2 & He2 & Ha2).
    repeat split.
    + lia.
    + now rewrite He1, He2.
    + apply Forall_app. split.
      * apply (Forall_range_widen (n:=n) (m:=n1)); auto.
      * apply (Forall_range_widen (n:=n1) (m:=n2)); auto.
Qed.

Lemma deepcopy_values_copied entries :
  Forall (fun kv => forall n,
              copied (snd kv) (fst (Copy.deepcopy (snd kv) n)) n
                     (snd (Copy.deepcopy (snd kv) n))) entries ->
  forall n,
    copied_values entries (fst (Copy.deepcopy_values entries n)) n
                  (snd (Copy.deepcopy_values entries n)).
Proof.
  unfold copied_values, erase_values, addrs_of_values.
  induction 1 as [|[k x] l Hx Hl IH]; intros n; simpl.
  - repeat split; auto.
  - simpl in Hx. specialize (Hx n).
    destruct (Copy.deepcopy x n) as [x' n1]; simpl in Hx.
    specialize (IH n1). destruct (Copy.deepcopy_values l n1) as [l' n2]; simpl in *.
    destruct Hx as (Hle1 & He1 & Ha1), IH as (Hle2 & He2 & Ha2).
    repeat split.
    + lia.
    + now rewrite He1, He2.
    + apply Forall_app. split.
      * apply (Forall_range_widen (n:=n) (m:=n1)); auto.
      * apply (Forall_range_widen (n:=n1) (m:=n2)); auto.
Qed.

Lemma deepcopy_copied x :
  forall n, copied x (fst (Copy.deepcopy x n)) n (snd (Copy.deepcopy x n)).
Proof.
  induction x as [ty v|a items IH|a entries IH|a ty state IH] using pyobj_induction;
    intros n.
  - simpl. repeat split; auto.
  - rewrite deepcopy_PyList. unfold copied. simpl.
    destruct (deepcopy_items_copied IH (S n)) as (Hle & He & Ha).
    repeat split.
    + lia.
    + now rewrite He.
    + constructor; [lia|].
      eapply Forall_range_widen; [ | | exact Ha]; lia.
  - rewrite deepcopy_PyDict. unfold copied. simpl.
    destruct (deepcopy_values_copied IH (S n)) as (Hle & He & Ha).
    unfold erase_values, addrs_of_values in *.
    repeat split.
    + lia.
    + now rewrite He.
    + constructor; [lia|].
      eapply Forall_range_widen; [ | | exact Ha]; lia.
  - rewrite deepcopy_Instance. unfold copied. simpl.
    destruct (deepcopy_values_copied IH (S n)) as (Hle & He & Ha).
    unfold erase_values, addrs_of_values in *.
    repeat split.
    + lia.
    + now rewrite He.
    + constructor; [lia|].
      eapply Forall_range_widen; [ | | exact Ha]; lia.
Qed.

Lemma deepcopy_kwargs_copied kwargs n :
  copied_values kwargs (fst (Copy.deepcopy_values kwargs n)) n
                (snd (Copy.deepcopy_values kwargs n)).
Proof.
  apply deepcopy_values_copied. apply Forall_forall. intros kv _ m.
  apply deepcopy_copied.
Qed.

(** The objects [add_io] goes through are objects of its argument. *)
Lemma add_io_visits_inside (find_node_traverser : string -> bool) obj :
  forall v a,
    In v (Trainer.add_io find_node_traverser obj) ->
    id_of (Trainer.visited v) = Some a ->
    In a (addrs obj).
Proof.
  induction obj as [ty z|b items IH|b entries IH|b ty state IH] using pyobj_induction;
    intros v a Hin Hid; simpl in Hin.
  - destruct (negb (find_node_traverser ty)); destruct Hin as [<-|[]]; discriminate.
  - simpl. right. apply in_flat_map in Hin as (x & Hx & Hv).
    apply in_flat_map. exists x. split; auto.
    rewrite Forall_forall in IH. eapply IH; eauto.
  - simpl. right. apply in_flat_map in Hin as (x & Hx & Hv).
    apply in_flat_map. exists x. split; auto.
    rewrite Forall_forall in IH. eapply IH; eauto.
  - destruct (negb (find_node_traverser ty)); destruct Hin as [<-|[]];
      simpl in Hid; injection Hid as <-; now left.
Qed.

(** C7.  [io_init] returns [fdl.Config(type(self), ...)] whose argument
    values are deep copies of the supplied ones: the same keywords, equal
    values, and no object of the config is an object of the caller's
    arguments; [add_io] goes through the copies only.  The caller's objects
    are read and never written. *)
Theorem io_init_captures_copies (find_node_traverser : string -> bool)
        (type_self : string) (kwargs : list (string * pyobj)) (next : nat) :
  Forall (fun a => a < next) (addrs_of_values kwargs) ->
  let r := Trainer.io_init find_node_traverser type_self kwargs next in
  let cfg := fst (fst r) in
  let visits := snd (fst r) in
  cfg_cls cfg = type_self
  /\ erase_values (cfg_arguments cfg) = erase_values kwargs
  /\ (forall a, In a (addrs_of_values (cfg_arguments cfg)) ->
                ~ In a (addrs_of_values kwargs))
  /\ visits = Trainer.add_io find_node_traverser (PyDict next (cfg_arguments cfg))
  /\ (forall v a, In v visits -> id_of (Trainer.visited v) = Some a ->
                  ~ In a (addrs_of_values kwargs)).
Proof.
  intros Hold. unfold Trainer.io_init.
  destruct (deepcopy_kwargs_copied kwargs (S next)) as (Hle & He & Hfresh).
  destruct (Copy.deepcopy_values kwargs (S next)) as [cfg_kwargs next'].
  simpl in *. rewrite Forall_forall in Hold, Hfresh.
  repeat split; auto.
  - intros a Ha Hin. specialize (Hold a Hin). specialize (Hfresh a Ha). lia.
  - intros v a Hv Hid Hin.
    pose proof (add_io_visits_inside find_node_traverser
                  (PyDict next cfg_kwargs) v Hv Hid) as Ha.
    specialize (Hold a Hin). destruct Ha as [<- | Ha]; [lia|].
    specialize (Hfresh a Ha). lia.
Qed.

Lemma io_init_captures_copies_witness :
  let r := Trainer.io_init (fun ty => String.eqb ty "int") "Trainer" trainer_kwargs 3 in
  fst (fst r)
  = mkConfig "Trainer"
      [("max_steps", Atom "int" 100);
       ("callbacks",
        PyList 4 [Instance 5 "ModelCheckpoint"
                    [("monitor", Atom "str" 5); ("history", PyList 6 [])]])]
  /\ (forall a, In a (addrs_of_values (cfg_arguments (fst (fst r)))) ->
                ~ In a (addrs_of_values trainer_kwargs))
  /\ snd (fst r)
     = [ Trainer.mkVisit (Atom "int" 100) None;
         Trainer.mkVisit (Instance 5 "ModelCheckpoint"
                    [("monitor", Atom "str" 5); ("history", PyList 6 [])])
                 (Some "ModelCheckpoint") ].
Proof.
  assert (Hold : Forall (fun a => a < 3) (addrs_of_values trainer_kwargs)).
  { repeat constructor. }
  pose proof (io_init_captures_copies (fun ty => String.eqb ty "int") "Trainer"
                trainer_kwargs Hold) as H.
  cbv zeta in H. destruct H as (_ & _ & Hfresh & _ & _).
  intros r. split; [reflexivity | split; [exact Hfresh | reflexivity]].
Defined.

(** ** Converting the trainer to Fabric *)

(** C8.  [to_fabric] builds the [Fabric] from the captured configuration:
    [devices] and [accelerator] are the attributes of [self.__io__] when it
    has them and [None] otherwise; [strategy] and [plugins], when present,
    are built with [fdl.build] if they are [fdl.Config] instances and then
    converted with [to_fabric]; [callbacks] and [loggers] are passed on as
    given. *)
Theorem to_fabric_from_captured_config (V : Type)
        (isinstance_Config : V -> bool) (fdl_build conversion_to_fabric : V -> V)
        (io_attr : string -> option V) (callbacks loggers : option V) :
  let out := Trainer.to_fabric isinstance_Config fdl_build conversion_to_fabric
                               io_attr callbacks loggers in
  let materialize v := if isinstance_Config v then fdl_build v else v in
  Trainer.devices out = io_attr "devices"
  /\ Trainer.accelerator out = io_attr "accelerator"
  /\ Trainer.strategy out
     = option_map (fun v => conversion_to_fabric (materialize v)) (io_attr "strategy")
  /\ Trainer.plugins out
     = option_map (fun v => conversion_to_fabric (materialize v)) (io_attr "plugins")
  /\ Trainer.callbacks out = callbacks
  /\ Trainer.loggers out = loggers.
Proof.
  unfold Trainer.to_fabric. simpl.
  destruct (io_attr "devices"), (io_attr "accelerator"),
    (io_attr "strategy"), (io_attr "plugins"); simpl; repeat split.
Qed.

(** * Further properties of the step hook *)

(** Without a scaler (bf16), a step that is not delegated and whose optimizer
    accumulates gradients in fp32 runs the closure, the after-closure hook and
    [optimizer.step], in this order, and returns what [optimizer.step]
    returned; nothing is copied, unscaled or scaled. *)
Theorem optimizer_step_unscaled_order optimizer model closure kw :
  fp32_grad_accumulation optimizer = Some true ->
  (forall self : MMP.t,
     MMP.scaler self = None ->
     MMP.amp_02 self = true \/ isinstance_MainParamsOptimizerWrapper optimizer = true ->
     MMP.optimizer_step self optimizer model closure kw
     = (Return result_of_optimizer_step,
        [ call_closure; call__after_closure model optimizer;
          call_optimizer_step optimizer kw ]))
  /\
  (forall self : MHP.t,
     MHP.scaler self = None ->
     isinstance_MainParamsOptimizerWrapper optimizer = true ->
     MHP.optimizer_step self optimizer model closure kw
     = (Return result_of_optimizer_step,
        [ call_closure; call__after_closure model optimizer;
          call_optimizer_step optimizer kw ])).
Proof.
  intros Hacc. split; intros self Hsc Hw.
  - unfold MMP.optimizer_step. rewrite (not_delegated self optimizer Hw), Hsc.
    unfold StepHook.scaled_step, StepHook.get_fp32_grad_accumulation.
    now rewrite Hacc.
  - unfold MHP.optimizer_step. rewrite Hw, Hsc.
    unfold StepHook.scaled_step, StepHook.get_fp32_grad_accumulation.
    now rewrite Hacc.
Qed.

Lemma optimizer_step_unscaled_order_witness :
  MMP.optimizer_step (bf16_plugin true) (MainParamsOptimizerWrapper adam true true)
                     gpt loss_closure []
  = (Return result_of_optimizer_step,
     [ call_closure;
       call__after_closure gpt (MainParamsOptimizerWrapper adam true true);
       call_optimizer_step (MainParamsOptimizerWrapper adam true true) [] ])
  /\
  MHP.optimizer_step (MHP.mk "bf16-mixed" "cuda" None)
                     (MainParamsOptimizerWrapper adam true true) gpt loss_closure []
  = (Return result_of_optimizer_step,
     [ call_closure;
       call__after_closure gpt (MainParamsOptimizerWrapper adam true true);
       call_optimizer_step (MainParamsOptimizerWrapper adam true true) [] ]).
Proof.
  split.
  - exact (proj1 (optimizer_step_unscaled_order
                    (MainParamsOptimizerWrapper adam true true) gpt loss_closure []
                    eq_refl)
                 (bf16_plugin true) eq_refl (or_introl eq_refl)).
  - exact (proj2 (optimizer_step_unscaled_order
                    (MainParamsOptimizerWrapper adam true true) gpt loss_closure []
                    eq_refl)
                 (MHP.mk "bf16-mixed" "cuda" None) eq_refl eq_refl).
Defined.

Ltac step_cases self optimizer model closure :=
  destruct self as [? ? [?|] ? ? []];
  destruct optimizer as [? [[]|]|? [] ?];
  destruct model as [?|? []];
  destruct closure as [[?|]].

Ltac half_step_cases self optimizer model closure :=
  destruct self as [? ? [?|]];
  destruct optimizer as [? [[]|]|? [] ?];
  destruct model as [?|? []];
  destruct closure as [[?|]].

(** Whatever the plugin, optimizer, model and closure: a step that raises
    [AssertionError] has made no call at all, and a step that raises anything
    has at most called the closure (the one error after the closure is the
    missing [copy_model_grads_to_main_grads] of an optimizer that is not a
    wrapper, which [MegatronHalfPrecision] has excluded by then); the closure
    is called at most once; with a scaler the hook never calls
    [optimizer.step] itself, and without one it never copies, unscales or
    touches the scaler. *)
Theorem optimizer_step_never (self : MMP.t) (half : MHP.t) optimizer model closure kw :
  let r := MMP.optimizer_step self optimizer model closure kw in
  let r' := MHP.optimizer_step half optimizer model closure kw in
  ((forall msg, fst r = Raise (AssertionError msg) -> snd r = [])
   /\ (forall e, fst r = Raise e ->
                 snd r = []
                 \/ (e = AttributeError "copy_model_grads_to_main_grads"
                     /\ isinstance_MainParamsOptimizerWrapper optimizer = false
                     /\ snd r = [call_closure]))
   /\ length (filter is_closure_call (snd r)) <= 1
   /\ (MMP.scaler self <> None -> existsb is_direct_step (snd r) = false)
   /\ (MMP.scaler self = None -> existsb is_scaling_call (snd r) = false))
  /\
  ((forall e, fst r' = Raise e -> (exists msg, e = AssertionError msg) /\ snd r' = [])
   /\ length (filter is_closure_call (snd r')) <= 1
   /\ (MHP.scaler half <> None -> existsb is_direct_step (snd r') = false)
   /\ (MHP.scaler half = None -> existsb is_scaling_call (snd r') = false)).
Proof.
  split.
  - step_cases self optimizer model closure; cbn;
      repeat split; intros; try discriminate; try reflexivity; try congruence;
      auto with arith;
      match goal with
      | H : Raise _ = Raise _ |- _ => injection H as <-; auto
      end.
  - half_step_cases half optimizer model closure; cbn;
      repeat split; intros; try discriminate; try reflexivity; try congruence;
      auto with arith;
      match goal with
      | H : Raise _ = Raise _ |- _ => injection H as <-; eauto
      end.
Qed.

Lemma optimizer_step_never_witness :
  snd (MMP.optimizer_step (bf16_plugin true) adam gpt loss_closure []) = []
  /\ (snd (MMP.optimizer_step (fp16_plugin true) adam gpt loss_closure []) = []
      \/ (AttributeError "copy_model_grads_to_main_grads"
          = AttributeError "copy_model_grads_to_main_grads"
          /\ isinstance_MainParamsOptimizerWrapper adam = false
          /\ snd (MMP.optimizer_step (fp16_plugin true) adam gpt loss_closure [])
             = [call_closure]))
  /\ existsb is_direct_step
       (snd (MMP.optimizer_step (fp16_plugin true) wrapped_adam gpt loss_closure []))
     = false
  /\ existsb is_scaling_call
       (snd (MHP.optimizer_step (MHP.mk "bf16-mixed" "cuda" None)
                                (MainParamsOptimizerWrapper adam true true)
                                gpt loss_closure []))
     = false.
Proof.
  split; [|split; [|split]].
  - destruct (optimizer_step_never (bf16_plugin true) (MHP.mk "bf16-mixed" "cuda" None)
                adam gpt loss_closure []) as [(H & _) _].
    exact (H "BF16 uses FP32 grad accumulation" eq_refl).
  - destruct (optimizer_step_never (fp16_plugin true) (MHP.mk "bf16-mixed" "cuda" None)
                adam gpt loss_closure []) as [(_ & H & _) _].
    exact (H (AttributeError "copy_model_grads_to_main_grads") eq_refl).
  - destruct (optimizer_step_never (fp16_plugin true) (MHP.mk "bf16-mixed" "cuda" None)
                wrapped_adam gpt loss_closure []) as [(_ & _ & _ & H & _) _].
    apply H. discriminate.
  - destruct (optimizer_step_never (bf16_plugin true) (MHP.mk "bf16-mixed" "cuda" None)
                (MainParamsOptimizerWrapper adam true true) gpt loss_closure [])
      as [_ (_ & _ & _ & H)].
    exact (H eq_refl).
Defined.

(** On a [MainParamsOptimizerWrapper] the two plugins run the same step:
    [MegatronMixedPrecision.optimizer_step] and
    [MegatronHalfPrecision.optimizer_step] return the same value after the
    same calls whenever they hold the same scaler.  On any other optimizer
    [MegatronHalfPrecision] raises [AssertionError] before any call. *)
Theorem optimizer_step_plugins_agree (self : MMP.t) (half : MHP.t)
        optimizer model closure kw :
  (isinstance_MainParamsOptimizerWrapper optimizer = true ->
   MMP.scaler self = MHP.scaler half ->
   MMP.optimizer_step self optimizer model closure kw
   = MHP.optimizer_step half optimizer model closure kw)
  /\
  (isinstance_MainParamsOptimizerWrapper optimizer = false ->
   MHP.optimizer_step half optimizer model closure kw
   = (Raise (AssertionError
        "MegatronHalfPrecisionPlugin supports only the optimizer with master parameters"),
      [])).
Proof.
  split; intros Hw.
  - intros Hs. unfold MMP.optimizer_step, MHP.optimizer_step.
    rewrite Hw, Hs, andb_false_r. simpl.
    now destruct (StepHook.scaled_step (MHP.scaler half) optimizer model closure kw).
  - unfold MHP.optimizer_step. now rewrite Hw.
Qed.

Lemma optimizer_step_plugins_agree_witness :
  MMP.optimizer_step (fp16_plugin false) wrapped_adam gpt loss_closure []
  = MHP.optimizer_step (MHP.mk "16-mixed" "cuda" (Some the_scaler))
                       wrapped_adam gpt loss_closure []
  /\
  MHP.optimizer_step (MHP.mk "16-mixed" "cuda" (Some the_scaler)) adam gpt loss_closure []
  = (Raise (AssertionError
       "MegatronHalfPrecisionPlugin supports only the optimizer with master parameters"),
     []).
Proof.
  split.
  - exact (proj1 (optimizer_step_plugins_agree (fp16_plugin false)
                    (MHP.mk "16-mixed" "cuda" (Some the_scaler))
                    wrapped_adam gpt loss_closure [])
                 eq_refl eq_refl).
  - exact (proj2 (optimizer_step_plugins_agree (fp16_plugin false)
                    (MHP.mk "16-mixed" "cuda" (Some the_scaler))
                    adam gpt loss_closure [])
                 eq_refl).
Defined.

(** * Further properties of [connect] and [convert_optimizer] *)

Lemma deref_new {A} (h : Store.t A) (items : list A) :
  Store.deref (h ++ [items]) (length h) = Some items.
Proof. exact (deref_alloc h items). Qed.

Lemma connect_wraps {L : Type} (self : MMP.t) (model : nn_Module)
      (optimizers : Store.ref) (lr_schedulers : L) (h : Store.t Optimizer) o rest :
  Store.deref h optimizers = Some (o :: rest) ->
  MMP.amp_02 self = true ->
  isinstance_MainParamsOptimizerWrapper o = false ->
  MMP.connect self model optimizers lr_schedulers h
  = Some ((model, length h, lr_schedulers),
          h ++ [MainParamsOptimizerWrapper o true true :: rest]).
Proof.
  intros Hd Hamp Hw. unfold MMP.connect. rewrite Hd. simpl. rewrite Hamp, Hw. simpl.
  rewrite deref_new, setitem_alloc.
  unfold MMP.convert_optimizer. now rewrite Hw, Hamp.
Qed.

Lemma connect_keeps {L : Type} (self : MMP.t) (model : nn_Module)
      (optimizers : Store.ref) (lr_schedulers : L) (h : Store.t Optimizer) items :
  Store.deref h optimizers = Some items ->
  MMP.is_empty items
  || negb (MMP.amp_02 self)
  || match items with
     | o :: _ => isinstance_MainParamsOptimizerWrapper o
     | [] => false
     end = true ->
  MMP.connect self model optimizers lr_schedulers h
  = Some ((model, optimizers, lr_schedulers), h).
Proof.
  intros Hd Hc. unfold MMP.connect. now rewrite Hd, Hc.
Qed.

(** [convert_optimizer] never wraps twice and [connect] settles after one
    call: converting a converted optimizer changes nothing, and connecting
    the list that [connect] returned gives back that same list object and
    leaves the store alone.  The list returned has the length and the tail
    of the one given, and with [amp_02] on its first optimizer is a
    [MainParamsOptimizerWrapper]. *)
Theorem connect_settles {L : Type} (self : MMP.t) (model : nn_Module)
        (optimizers : Store.ref) (lr_schedulers : L) (h : Store.t Optimizer)
        (items : list Optimizer) :
  Store.deref h optimizers = Some items ->
  (forall o, MMP.convert_optimizer self (MMP.convert_optimizer self o)
             = MMP.convert_optimizer self o)
  /\
  exists (r : Store.ref) (h' : Store.t Optimizer) (items' : list Optimizer),
    MMP.connect self model optimizers lr_schedulers h
    = Some ((model, r, lr_schedulers), h')
    /\ MMP.connect self model r lr_schedulers h' = Some ((model, r, lr_schedulers), h')
    /\ Store.deref h' r = Some items'
    /\ length items' = length items
    /\ tl items' = tl items
    /\ (MMP.amp_02 self = true ->
        forall o rest, items' = o :: rest ->
                       isinstance_MainParamsOptimizerWrapper o = true).
Proof.
  intros Hd. split.
  - intros o. unfold MMP.convert_optimizer.
    destruct o as [n a|o' b c], (MMP.amp_02 self); reflexivity.
  - destruct (MMP.is_empty items
              || negb (MMP.amp_02 self)
              || match items with
                 | o :: _ => isinstance_MainParamsOptimizerWrapper o
                 | [] => false
                 end) eqn:Hc.
    + exists optimizers, h, items.
      rewrite (connect_keeps self model optimizers lr_schedulers h Hd Hc).
      repeat split; auto.
      intros Hamp o rest ->. rewrite Hamp in Hc. simpl in Hc. exact Hc.
    + destruct items as [|o rest]; [discriminate|]. simpl in Hc.
      apply orb_false_iff in Hc as [Hamp Hw].
      apply negb_false_iff in Hamp.
      exists (length h), (h ++ [MainParamsOptimizerWrapper o true true :: rest]),
        (MainParamsOptimizerWrapper o true true :: rest).
      rewrite (connect_wraps self model optimizers lr_schedulers h Hd Hamp Hw).
      repeat split.
      * apply (connect_keeps self model (length h) lr_schedulers
                 (h ++ [MainParamsOptimizerWrapper o true true :: rest])
                 (items := MainParamsOptimizerWrapper o true true :: rest)).
        -- apply deref_new.
        -- simpl. now rewrite orb_true_r.
      * apply deref_new.
      * intros _ o' rest' Heq. now injection Heq as <- _.
Qed.

Lemma connect_settles_witness :
  exists (r : Store.ref) (h' : Store.t Optimizer) (items' : list Optimizer),
    MMP.connect (fp16_plugin true) (mk_nn_Module []) 0 tt [[adam; wrapped_adam]]
    = Some ((mk_nn_Module [], r, tt), h')
    /\ MMP.connect (fp16_plugin true) (mk_nn_Module []) r tt h'
       = Some ((mk_nn_Module [], r, tt), h')
    /\ Store.deref h' r = Some items'
    /\ length items' = 2
    /\ tl items' = [wrapped_adam]
    /\ (MMP.amp_02 (fp16_plugin true) = true ->
        forall o rest, items' = o :: rest ->
                       isinstance_MainParamsOptimizerWrapper o = true).
Proof.
  exact (proj2 (connect_settles (fp16_plugin true) (mk_nn_Module []) 0 tt
                  [[adam; wrapped_adam]] eq_refl)).
Defined.

(** What [connect] wraps, the fp16 step rejects: the wrapper is built with
    [fp32_grad_accum=True], so with a scaler [optimizer_step] on the connected
    optimizer raises "FP16 uses FP16 grad accumulation" before the closure
    runs, while without a scaler (bf16) it runs the closure, the after-closure
    hook and [optimizer.step]. *)
Theorem connect_then_step {L : Type} (self : MMP.t) (module : nn_Module)
        (optimizers : Store.ref) (lr_schedulers : L) (h : Store.t Optimizer)
        o rest model closure kw :
  Store.deref h optimizers = Some (o :: rest) ->
  MMP.amp_02 self = true ->
  isinstance_MainParamsOptimizerWrapper o = false ->
  exists (r : Store.ref) (h' : Store.t Optimizer) (o' : Optimizer),
    MMP.connect self module optimizers lr_schedulers h
    = Some ((module, r, lr_schedulers), h')
    /\ Store.deref h' r = Some (o' :: rest)
    /\ MMP.optimizer_step self o' model closure kw
       = match MMP.scaler self with
         | Some _ =>
             (Raise (AssertionError "FP16 uses FP16 grad accumulation"), [])
         | None =>
             (Return result_of_optimizer_step,
              [ call_closure; call__after_closure model o';
                call_optimizer_step o' kw ])
         end.
Proof.
  intros Hd Hamp Hw.
  exists (length h), (h ++ [MainParamsOptimizerWrapper o true true :: rest]),
    (MainParamsOptimizerWrapper o true true).
  rewrite (connect_wraps self module optimizers lr_schedulers h Hd Hamp Hw).
  repeat split.
  - apply deref_new.
  - unfold MMP.optimizer_step. rewrite Hamp. simpl.
    destruct (MMP.scaler self); reflexivity.
Qed.

Lemma connect_then_step_witness :
  exists (r : Store.ref) (h' : Store.t Optimizer) (o' : Optimizer),
    MMP.connect (fp16_plugin true) (mk_nn_Module []) 0 tt [[adam]]
    = Some ((mk_nn_Module [], r, tt), h')
    /\ Store.deref h' r = Some [o']
    /\ MMP.optimizer_step (fp16_plugin true) o' gpt loss_closure []
       = (Raise (AssertionError "FP16 uses FP16 grad accumulation"), []).
Proof.
  exact (connect_then_step (fp16_plugin true) (mk_nn_Module []) 0 tt [[adam]]
                           gpt loss_closure [] eq_refl eq_refl eq_refl).
Defined.

(** * Further properties of construction *)

(** A plugin built by [__init__] for a supported precision is consistent
    with itself: there is one half-precision dtype [d] (fp16 for
    ["16-mixed"], bf16 for ["bf16-mixed"]) that is its [dtype], the dtype
    [convert_module] casts floating-point parameters to, and the dtype
    [convert_input] casts fp32 leaves to; it has no scaler exactly when [d]
    is bf16, and keeps the precision, device and [amp_02] it was given. *)
Theorem constructed_plugin_consistent
        (super___init__ :
           string -> string -> option GradScaler -> MMP.attrs -> result unit * MMP.attrs)
        (set_autocast_gpu_dtype : option torch_dtype -> result unit)
        (precision : string) (amp_02 : bool) (device : string)
        (scaler : MMP.scaler_arg) :
  precision = "16-mixed" \/ precision = "bf16-mixed" ->
  parent_records super___init__ precision
    (if precision =? "bf16-mixed" then None else Some (mkGradScaler (2 ^ 32) 1000 2)) ->
  (forall d, set_autocast_gpu_dtype (Some d) = Return tt) ->
  let r := MMP.__init__ super___init__ set_autocast_gpu_dtype
                        precision amp_02 device scaler MMP.blank in
  exists (plugin : MMP.t) (d : torch_dtype),
    fst r = Return tt
    /\ MMP.constructed (snd r) = Some plugin
    /\ (d = float16 /\ precision = "16-mixed" \/ d = bfloat16 /\ precision = "bf16-mixed")
    /\ MMP.dtype plugin = Some d
    /\ MMP.precision plugin = precision
    /\ MMP.device plugin = device
    /\ MMP.amp_02 plugin = amp_02
    /\ (MMP.scaler plugin = None <-> d = bfloat16)
    /\ (forall module, MMP.convert_module plugin module = module_to d module)
    /\ (forall data, MMP.convert_input plugin data = cast_leaves (fp32_to d) data).
Proof.
  intros [-> | ->] Hrec Hset; simpl in Hrec; unfold MMP.__init__; simpl;
    rewrite Hrec; simpl; rewrite Hset; simpl.
  - exists (MMP.mk "16-mixed" device (Some (mkGradScaler (2 ^ 32) 1000 2))
                   (Some float16) tensor_half amp_02), float16.
    repeat split; auto; try discriminate.
    intros data. now apply fp32_to_float16_cast.
  - exists (MMP.mk "bf16-mixed" device None (Some bfloat16) tensor_bfloat16 amp_02),
      bfloat16.
    repeat split; auto.
    intros data. now apply fp32_to_float16_cast.
Qed.

Lemma constructed_plugin_consistent_witness :
  let r := MMP.__init__ Lightning.MixedPrecision___init__ Lightning.set_autocast_gpu_dtype
                        "bf16-mixed" false "cuda" None MMP.blank in
  exists (plugin : MMP.t) (d : torch_dtype),
    fst r = Return tt
    /\ MMP.constructed (snd r) = Some plugin
    /\ (d = float16 /\ "bf16-mixed" = "16-mixed"
        \/ d = bfloat16 /\ "bf16-mixed" = "bf16-mixed")
    /\ MMP.dtype plugin = Some d
    /\ MMP.precision plugin = "bf16-mixed"
    /\ MMP.device plugin = "cuda"
    /\ MMP.amp_02 plugin = false
    /\ (MMP.scaler plugin = None <-> d = bfloat16)
    /\ (forall module, MMP.convert_module plugin module = module_to d module)
    /\ (forall data, MMP.convert_input plugin data = cast_leaves (fp32_to d) data).
Proof.
  apply (@constructed_plugin_consistent Lightning.MixedPrecision___init__
           Lightning.set_autocast_gpu_dtype "bf16-mixed" false "cuda" None).
  - right; reflexivity.
  - intros d a; reflexivity.
  - intros d; reflexivity.
Defined.

(** A failed construction leaves a half-initialised object: for a precision
    other than the two supported ones, started on a blank object, [__init__]
    has stored the precision, the device, the scaler and [dtype = None] when
    it raises, but neither [float16_convertor] nor [amp_02]. *)
Theorem failed_init_partial_object
        (super___init__ :
           string -> string -> option GradScaler -> MMP.attrs -> result unit * MMP.attrs)
        (set_autocast_gpu_dtype : option torch_dtype -> result unit)
        (precision : string) (amp_02 : bool) (device : string)
        (scaler : MMP.scaler_arg) :
  precision <> "16-mixed" ->
  precision <> "bf16-mixed" ->
  parent_records super___init__ precision (Some (mkGradScaler (2 ^ 32) 1000 2)) ->
  set_autocast_gpu_dtype None = Return tt ->
  let r := MMP.__init__ super___init__ set_autocast_gpu_dtype
                        precision amp_02 device scaler MMP.blank in
  fst r = Raise (UnboundLocalError "float16_convertor")
  /\ snd r = MMP.mk_attrs (Some precision) (Some device)
                          (Some (Some (mkGradScaler (2 ^ 32) 1000 2)))
                          (Some None) None None
  /\ MMP.constructed (snd r) = None.
Proof.
  intros H16 Hbf Hrec Hset. unfold MMP.__init__.
  destruct (String.eqb_spec precision "bf16-mixed") as [|_]; [contradiction|].
  destruct (String.eqb_spec precision "16-mixed") as [|_]; [contradiction|].
  rewrite Hrec. simpl. rewrite Hset. simpl. repeat split.
Qed.

Lemma failed_init_partial_object_witness :
  let r := MMP.__init__ Lightning.MixedPrecision___init__ Lightning.set_autocast_gpu_dtype
                        "32-true" true "cuda" None MMP.blank in
  fst r = Raise (UnboundLocalError "float16_convertor")
  /\ snd r = MMP.mk_attrs (Some "32-true") (Some "cuda")
                          (Some (Some (mkGradScaler (2 ^ 32) 1000 2)))
                          (Some None) None None
  /\ MMP.constructed (snd r) = None.
Proof.
  apply (@failed_init_partial_object Lightning.MixedPrecision___init__
           Lightning.set_autocast_gpu_dtype "32-true" true "cuda" None).
  - discriminate.
  - discriminate.
  - intros d a; reflexivity.
  - reflexivity.
Defined.

(** * The other two constructors *)

(** [MegatronHalfPrecision.__init__] differs from
    [PipelineMixedPrecision.__init__] only in resolving ["auto"]: on a string
    precision and a scaler that is [None] or a [GradScaler] the two run
    identically; and passing ["auto"] is the same as passing [None] for
    ["bf16-mixed"] and [GradScaler(init_scale=2**32, growth_interval=1000,
    hysteresis=2)] for anything else, an integer precision included. *)
Theorem half_precision_init_resolves_auto (S : Type)
        (super___init__ :
           MHP.precision_arg -> string -> option (GradScaler + string) -> S
           -> result unit * S)
        (set_autocast_gpu_dtype : option torch_dtype -> result unit)
        (device : string) (self : S) :
  (forall (precision : string) (scaler : option GradScaler),
     MHP.__init__ super___init__ set_autocast_gpu_dtype
                  (inl precision) device (option_map inl scaler) self
     = PMP.__init__ (fun p d s => super___init__ (inl p) d (option_map inl s))
                    set_autocast_gpu_dtype precision device scaler self)
  /\
  (forall precision : MHP.precision_arg,
     MHP.__init__ super___init__ set_autocast_gpu_dtype
                  precision device (Some (inr "auto")) self
     = MHP.__init__ super___init__ set_autocast_gpu_dtype
                    precision device
                    (if MHP.precision_is precision "bf16-mixed" then None
                     else Some (inl (mkGradScaler (2 ^ 32) 1000 2)))
                    self).
Proof.
  split.
  - intros precision scaler. unfold MHP.__init__, PMP.__init__.
    destruct scaler; reflexivity.
  - intros precision. unfold MHP.__init__. simpl.
    destruct (MHP.precision_is precision "bf16-mixed"); reflexivity.
Qed.

(** Neither [MegatronHalfPrecision.__init__] nor
    [PipelineMixedPrecision.__init__] raises an error of its own, whatever
    the precision: an exception that leaves them was raised by the parent's
    initialiser or by [torch.set_autocast_gpu_dtype]. *)
Theorem half_precision_init_raises_nothing (S : Type)
        (super___init__ :
           MHP.precision_arg -> string -> option (GradScaler + string) -> S
           -> result unit * S)
        (pipeline_super___init__ :
           string -> string -> option GradScaler -> S -> result unit * S)
        (set_autocast_gpu_dtype : option torch_dtype -> result unit)
        (device : string) (self : S) (e : exn) :
  (forall precision scaler,
     fst (MHP.__init__ super___init__ set_autocast_gpu_dtype
                       precision device scaler self) = Raise e ->
     (exists scaler', fst (super___init__ precision device scaler' self) = Raise e)
     \/ (exists dtype, set_autocast_gpu_dtype dtype = Raise e))
  /\
  (forall precision scaler,
     fst (PMP.__init__ pipeline_super___init__ set_autocast_gpu_dtype
                       precision device scaler self) = Raise e ->
     fst (pipeline_super___init__ precision device scaler self) = Raise e
     \/ (exists dtype, set_autocast_gpu_dtype dtype = Raise e)).
Proof.
  split; intros precision scaler.
  - unfold MHP.__init__.
    set (scaler' := if MHP.is_auto scaler then _ else scaler).
    destruct (super___init__ precision device scaler' self) as [[u|e'] self'] eqn:Hp.
    + match goal with
      | |- context [set_autocast_gpu_dtype ?d] =>
          destruct (set_autocast_gpu_dtype d) as [u'|e''] eqn:Hs
      end; simpl; intros H; [discriminate|].
      right. eexists. rewrite Hs. exact H.
    + simpl. intros H. left. exists scaler'. now rewrite Hp.
  - unfold PMP.__init__.
    destruct (pipeline_super___init__ precision device scaler self)
      as [[u|e'] self'] eqn:Hp.
    + match goal with
      | |- context [set_autocast_gpu_dtype ?d] =>
          destruct (set_autocast_gpu_dtype d) as [u'|e''] eqn:Hs
      end; simpl; intros H; [discriminate|].
      right. eexists. rewrite Hs. exact H.
    + simpl. intros H. now left.
Qed.

Lemma half_precision_init_raises_nothing_witness :
  (exists scaler',
     fst ((fun (p : MHP.precision_arg) (d : string) (s : option (GradScaler + string))
               (x : unit) => (@Raise unit (AttributeError "device"), x))
            (inr 16%Z) "cuda" scaler' tt)
     = Raise (AttributeError "device"))
  \/ (exists dtype,
        Lightning.set_autocast_gpu_dtype dtype = Raise (AttributeError "device")).
Proof.
  apply (proj1 (half_precision_init_raises_nothing
                  (fun (p : MHP.precision_arg) (d : string)
                       (s : option (GradScaler + string)) (x : unit) =>
                     (@Raise unit (AttributeError "device"), x))
                  (fun (p d : string) (s : option GradScaler) (x : unit) =>
                     (Return tt, x))
                  Lightning.set_autocast_gpu_dtype "cuda" tt
                  (AttributeError "device"))
               (inr 16%Z) None).
  reflexivity.
Defined.

(** * Further properties of the conversions *)

Lemma tensor_to_twice (d : torch_dtype) (p : Tensor) :
  tensor_to d (tensor_to d p) = tensor_to d p.
Proof. reflexivity. Qed.

Lemma module_to_twice (d : torch_dtype) (module : nn_Module) :
  module_to d (module_to d module) = module_to d module.
Proof.
  unfold module_to. simpl. f_equal. rewrite map_map. apply map_ext. intros p.
  destruct (is_floating_point (tensor_dtype p)) eqn:Hp.
  - simpl. now destruct (is_floating_point d).
  - now rewrite Hp.
Qed.

Lemma module_to_keeps_others (d : torch_dtype) (module : nn_Module) i p :
  nth_error (parameters module) i = Some p ->
  is_floating_point (tensor_dtype p) = false ->
  nth_error (parameters (module_to d module)) i = Some p.
Proof.
  intros Hi Hp. unfold module_to. simpl.
  rewrite nth_error_map, Hi. simpl. now rewrite Hp.
Qed.

(** [convert_module] can be applied again without effect, keeps the number
    of parameters, and leaves every parameter that is not floating point
    exactly as it was, for any precision string. *)
Theorem convert_module_stable (self : MMP.t) (module : nn_Module) :
  MMP.convert_module self (MMP.convert_module self module)
  = MMP.convert_module self module
  /\ length (parameters (MMP.convert_module self module)) = length (parameters module)
  /\ forall i p,
       nth_error (parameters module) i = Some p ->
       is_floating_point (tensor_dtype p) = false ->
       nth_error (parameters (MMP.convert_module self module)) i = Some p.
Proof.
  unfold MMP.convert_module, module_bfloat16, module_half.
  destruct (MMP.precision self =? "bf16-mixed");
    [|destruct (MMP.precision self =? "16-mixed")];
    repeat split;
    auto using module_to_twice, module_to_keeps_others;
    unfold module_to; simpl; apply length_map.
Qed.

Lemma convert_module_stable_witness :
  nth_error (parameters (MMP.convert_module (fp16_plugin true)
                           (mk_nn_Module [mkTensor float32 1; mkTensor int64 2]))) 1
  = Some (mkTensor int64 2).
Proof.
  destruct (convert_module_stable (fp16_plugin true)
              (mk_nn_Module [mkTensor float32 1; mkTensor int64 2]))
    as (_ & _ & H).
  exact (H 1 (mkTensor int64 2) eq_refl eq_refl).
Defined.

Lemma forallb_map_Forall {A} (f : A -> A) (p : A -> bool) (l : list A) :
  Forall (fun x => p (f x) = true) l -> forallb p (map f l) = true.
Proof.
  induction 1 as [|x l Hx Hl IH]; simpl; [reflexivity|].
  now rewrite Hx, IH.
Qed.

Lemma cast_to_fp32_no_half data :
  no_half_leaf (cast_leaves half_to_fp32 data) = true.
Proof.
  induction data as [val|v|items IH|items IH] using pydata_induction; simpl.
  - now destruct val as [[] z].
  - reflexivity.
  - now apply forallb_map_Forall.
  - now apply forallb_map_Forall.
Qed.

Lemma cast_to_fp32_fixes data :
  no_half_leaf data = true -> cast_leaves half_to_fp32 data = data.
Proof.
  induction data as [val|v|items IH|items IH] using pydata_induction; simpl; intros Hn.
  - destruct val as [[] z]; simpl in *; try discriminate; reflexivity.
  - reflexivity.
  - f_equal. now apply (map_id_Forall _ no_half_leaf).
  - f_equal. now apply (map_id_Forall _ no_half_leaf).
Qed.

Lemma cast_to_half_no_fp32 (half : torch_dtype) data :
  half <> float32 ->
  no_fp32_leaf (cast_leaves (fp32_to half) data) = true.
Proof.
  intros Hh.
  induction data as [val|v|items IH|items IH] using pydata_induction; simpl.
  - destruct val as [[] z]; simpl; try reflexivity.
    destruct half; try reflexivity. contradiction.
  - reflexivity.
  - now apply forallb_map_Forall.
  - now apply forallb_map_Forall.
Qed.

Lemma cast_to_half_fixes (half : torch_dtype) data :
  no_fp32_leaf data = true -> cast_leaves (fp32_to half) data = data.
Proof.
  induction data as [val|v|items IH|items IH] using pydata_induction; simpl; intros Hn.
  - destruct val as [[] z]; simpl in *; try discriminate; reflexivity.
  - reflexivity.
  - f_equal. now apply (map_id_Forall _ no_fp32_leaf).
  - f_equal. now apply (map_id_Forall _ no_fp32_leaf).
Qed.

(** [convert_output] leaves no half-precision tensor anywhere in the data,
    returns data without half-precision leaves as it is, and so does nothing
    when applied a second time. *)
Theorem convert_output_clears_half (self : MMP.t) (data : pydata) :
  no_half_leaf (MMP.convert_output self data) = true
  /\ (no_half_leaf data = true -> MMP.convert_output self data = data)
  /\ MMP.convert_output self (MMP.convert_output self data)
     = MMP.convert_output self data.
Proof.
  unfold MMP.convert_output. rewrite !float16_to_fp32_cast.
  repeat split.
  - apply cast_to_fp32_no_half.
  - apply cast_to_fp32_fixes.
  - apply cast_to_fp32_fixes, cast_to_fp32_no_half.
Qed.

Lemma convert_output_clears_half_witness :
  MMP.convert_output (fp16_plugin true)
    (DList [DTensor (mkTensor float32 1); DTuple [DOther 2; DTensor (mkTensor int64 3)]])
  = DList [DTensor (mkTensor float32 1); DTuple [DOther 2; DTensor (mkTensor int64 3)]].
Proof.
  exact (proj1 (proj2 (convert_output_clears_half (fp16_plugin true)
                         (DList [DTensor (mkTensor float32 1);
                                 DTuple [DOther 2; DTensor (mkTensor int64 3)]])))
               eq_refl).
Defined.

(** With a convertor that casts to a half-precision dtype, [convert_input]
    leaves no fp32 tensor anywhere in the data, returns data without fp32
    leaves as it is, and does nothing when applied a second time. *)
Theorem convert_input_clears_fp32 (self : MMP.t) (half : torch_dtype) (data : pydata) :
  (forall val, MMP.float16_convertor self val = tensor_to half val) ->
  half = float16 \/ half = bfloat16 ->
  no_fp32_leaf (MMP.convert_input self data) = true
  /\ (no_fp32_leaf data = true -> MMP.convert_input self data = data)
  /\ MMP.convert_input self (MMP.convert_input self data)
     = MMP.convert_input self data.
Proof.
  intros Hc Hh.
  assert (Hne : half <> float32) by (destruct Hh as [-> | ->]; discriminate).
  unfold MMP.convert_input.
  rewrite !(fp32_to_float16_cast (half := half)) by exact Hc.
  repeat split.
  - now apply cast_to_half_no_fp32.
  - apply cast_to_half_fixes.
  - apply cast_to_half_fixes. now apply cast_to_half_no_fp32.
Qed.

Lemma convert_input_clears_fp32_witness :
  no_fp32_leaf
    (MMP.convert_input (fp16_plugin true)
       (DTuple [DTensor (mkTensor float32 1); DList [DTensor (mkTensor bfloat16 2)]]))
  = true
  /\ MMP.convert_input (fp16_plugin true) (DList [DTensor (mkTensor bfloat16 2); DOther 0])
     = DList [DTensor (mkTensor bfloat16 2); DOther 0].
Proof.
  split.
  - exact (proj1 (convert_input_clears_fp32 (fp16_plugin true) (half := float16)
                    (DTuple [DTensor (mkTensor float32 1);
                             DList [DTensor (mkTensor bfloat16 2)]])
                    (fun val => eq_refl) (or_introl eq_refl))).
  - exact (proj1 (proj2 (convert_input_clears_fp32 (fp16_plugin true) (half := float16)
                           (DList [DTensor (mkTensor bfloat16 2); DOther 0])
                           (fun val => eq_refl) (or_introl eq_refl)))
                 eq_refl).
Defined.

(** * Further properties of the trainer *)

Lemma map_flat_map_comm {A B C} (f : B -> C) (g : A -> list B) (l : list A) :
  map f (flat_map g l) = flat_map (fun x => map f (g x)) l.
Proof.
  induction l as [|x l IH]; simpl; [reflexivity|].
  now rewrite map_app, IH.
Qed.

Lemma flat_map_map_comm {A B C} (f : B -> list C) (g : A -> B) (l : list A) :
  flat_map f (map g l) = flat_map (fun x => f (g x)) l.
Proof.
  induction l as [|x l IH]; simpl; [reflexivity|]. now rewrite IH.
Qed.

Lemma flat_map_ext_Forall {A B} (f g : A -> list B) (l : list A) :
  Forall (fun x => f x = g x) l -> flat_map f l = flat_map g l.
Proof.
  induction 1 as [|x l Hx Hl IH]; simpl; [reflexivity|]. now rewrite Hx, IH.
Qed.



Lemma erase_erase (x : pyobj) : erase (erase x) = erase x.
Proof.
  induction x as [ty z|b items IH|b entries IH|b ty state IH] using pyobj_induction;
    simpl.
  - reflexivity.
  - f_equal. rewrite map_map. now apply map_ext_Forall.
  - f_equal. rewrite map_map. apply map_ext_Forall.
    revert IH. apply Forall_impl. intros [k v] H. simpl in *. now rewrite H.
  - f_equal. rewrite map_map. apply map_ext_Forall.
    revert IH. apply Forall_impl. intros [k v] H. simpl in *. now rewrite H.
Qed.

Lemma add_io_erase (find_node_traverser : string -> bool) (x : pyobj) :
  map forget (Trainer.add_io find_node_traverser (erase x))
  = map forget (Trainer.add_io find_node_traverser x).
Proof.
  induction x as [ty z|b items IH|b entries IH|b ty state IH] using pyobj_induction;
    simpl.
  - reflexivity.
  - rewrite flat_map_map_comm, !map_flat_map_comm. now apply flat_map_ext_Forall.
  - rewrite flat_map_map_comm, !map_flat_map_comm. now apply flat_map_ext_Forall.
  - pose proof (erase_erase (Instance b ty state)) as H. simpl in H.
    injection H as H.
    destruct (negb (find_node_traverser ty)); unfold forget; simpl; now rewrite H.
Qed.

(** Copying first loses nothing for [add_io]: run by [io_init] on the copies,
    it visits, leaf for leaf, copies of the leaves it would have visited in
    the caller's [kwargs] and hands the same classes to [track_io]. *)
Theorem io_init_tracks_as_originals (find_node_traverser : string -> bool)
        (type_self : string) (kwargs : list (string * pyobj)) (next a : nat) :
  map forget (snd (fst (Trainer.io_init find_node_traverser type_self kwargs next)))
  = map forget (Trainer.add_io find_node_traverser (PyDict a kwargs)).
Proof.
  unfold Trainer.io_init.
  destruct (deepcopy_kwargs_copied kwargs (S next)) as (_ & He & _).
  destruct (Copy.deepcopy_values kwargs (S next)) as [cfg_kwargs next'].
  cbn [fst snd] in *.
  rewrite <- (add_io_erase find_node_traverser (PyDict next cfg_kwargs)).
  rewrite <- (add_io_erase find_node_traverser (PyDict a kwargs)).
  cbn [erase]. unfold erase_values in He. now rewrite He.
Qed.

(** * The step on an optimizer without master parameters *)

(** An optimizer that is not a [MainParamsOptimizerWrapper] and has no
    attribute [fp32_grad_accumulation]: with [amp_02] off
    [MegatronMixedPrecision.optimizer_step] passes it, the model, the closure
    and the keyword arguments to the parent's [optimizer_step] and returns its
    result, without looking at the scaler; with [amp_02] on the lookup of
    [fp32_grad_accumulation] raises [AttributeError] before the closure
    runs, with or without a scaler. *)
Theorem optimizer_step_plain_optimizer (self : MMP.t) (name : string)
        (model : Model) (closure : Closure) (kw : kwargs) :
  (MMP.amp_02 self = false ->
   forall attr,
     MMP.optimizer_step self (TorchOptimizer name attr) model closure kw
     = (Return result_of_super_optimizer_step,
        [ call_super_optimizer_step (TorchOptimizer name attr) model closure kw ]))
  /\
  (MMP.amp_02 self = true ->
   MMP.optimizer_step self (TorchOptimizer name None) model closure kw
   = (Raise (AttributeError "fp32_grad_accumulation"), [])).
Proof.
  split; intros Hamp; [intros attr|]; unfold MMP.optimizer_step; rewrite Hamp; simpl.
  - reflexivity.
  - now destruct (MMP.scaler self).
Qed.

Lemma optimizer_step_plain_optimizer_witness :
  MMP.optimizer_step (fp16_plugin false) (TorchOptimizer "SGD" None) gpt loss_closure []
  = (Return result_of_super_optimizer_step,
     [ call_super_optimizer_step (TorchOptimizer "SGD" None) gpt loss_closure [] ])
  /\
  MMP.optimizer_step (bf16_plugin true) (TorchOptimizer "SGD" None) gpt loss_closure []
  = (Raise (AttributeError "fp32_grad_accumulation"), []).
Proof.
  split.
  - exact (proj1 (optimizer_step_plain_optimizer (fp16_plugin false) "SGD"
                    gpt loss_closure [])
                 eq_refl None).
  - exact (proj2 (optimizer_step_plain_optimizer (bf16_plugin true) "SGD"
                    gpt loss_closure [])
                 eq_refl).
Defined.
